(** * Humanizer benchmark harness: a shallow embedding of [benchmark.py]

    The harness talks to an HTTP service, reads the wall clock and prints a
    report.  The embedding threads an explicit program state through a small
    state-and-exception monad; the service and the clock are an oracle
    ([world]) that the program consults, and every request it issues and
    every line it prints is recorded in the state. *)

From Stdlib Require Import ZArith String List Floats Lia.
From stdpp Require Import base option list gmap strings.

#[local] Open Scope string_scope.
#[local] Open Scope list_scope.
#[local] Set Warnings "-register-all".

(** ** Python values

    What [response.json()] can return, and what the [json=] payload holds.
    A [dict] is a finite map with string keys. *)

Inductive value : Type :=
  | VNone
  | VBool (b : bool)
  | VInt (z : Z)
  | VFloat (f : float)
  | VStr (s : string)
  | VList (l : list value)
  | VDict (d : gmap string value).

(** The empty dict literal [{}]. *)
Definition empty_dict : value := VDict ∅.

(** Python truth value testing, as used by [if stats_fast:]. *)
Definition truthy (v : value) : bool :=
  match v with
  | VNone => false
  | VBool b => b
  | VInt z => negb (z =? 0)%Z
  | VFloat f => negb (f =? 0)%float
  | VStr s => match s with EmptyString => false | String _ _ => true end
  | VList l => match l with [] => false | _ :: _ => true end
  | VDict d => negb (size d =? 0)%nat
  end.

Definition is_dict (v : value) : bool :=
  match v with VDict _ => true | _ => false end.

(** A [str] is held as its UTF-8 bytes.  JSON can carry a lone surrogate
    (the body ["\ud800"] parses to one), which UTF-8 does not encode; it is
    held as the three bytes ED A0..BF 80..BF that the [surrogatepass] handler
    writes.  In valid UTF-8 the byte ED is never followed by A0..BF. *)
Fixpoint has_surrogate (s : string) : bool :=
  match s with
  | EmptyString => false
  | String a rest =>
      match rest with
      | String b _ =>
          (Ascii.nat_of_ascii a =? 237)%nat
          && (160 <=? Ascii.nat_of_ascii b)%nat
          && (Ascii.nat_of_ascii b <=? 191)%nat
      | EmptyString => false
      end
      || has_surrogate rest
  end.

(** Whether [print(f"...{v}...")] can write the value to a UTF-8 console.
    A [str] is formatted as it is, so a lone surrogate in it cannot be
    encoded; numbers, booleans and [None] format to ASCII, and a list or a
    dict is formatted with [repr], which escapes surrogates. *)
Definition printable (v : value) : bool :=
  match v with
  | VStr s => negb (has_surrogate s)
  | _ => true
  end.

(** ** Exceptions

    The classes the program's [except] clauses tell apart.  In [requests],
    [ConnectTimeout] derives from both [ConnectionError] and [Timeout], and
    [ReadTimeout] from [Timeout]; every other exception of the library
    ([InvalidSchema], [MissingSchema], [TooManyRedirects], ...) derives from
    [RequestException] only.  All of them derive from [Exception].
    [UnicodeEncodeError] is what [print] raises on a string the console
    cannot encode. *)

Inductive exn : Type :=
  | ConnectionError
  | ConnectTimeout
  | ReadTimeout
  | RequestException (cls : string)
  | JSONDecodeError
  | AttributeError
  | KeyError (key : string)
  | ZeroDivisionError
  | UnicodeEncodeError.

(** [isinstance(e, requests.Timeout)] *)
Definition is_Timeout (e : exn) : bool :=
  match e with ConnectTimeout | ReadTimeout => true | _ => false end.

(** [isinstance(e, requests.ConnectionError)] *)
Definition is_ConnectionError (e : exn) : bool :=
  match e with ConnectionError | ConnectTimeout => true | _ => false end.

Inductive result (A : Type) : Type :=
  | Ok (a : A)
  | Raise (e : exn).
Arguments Ok {A} a.
Arguments Raise {A} e.

(** ** The outside world *)

Inductive method : Type := GET | POST.

(** One call of [requests.get] / [requests.post]: the URL, the [json=]
    keyword (absent for [get]) and the [timeout=] keyword in seconds. *)
Record request : Type := Request {
  req_method : method;
  req_url : string;
  req_json : option (gmap string value);
  req_timeout : Z
}.

(** A response object: its status code and its body as [.json()] parses it,
    [None] when the body is not valid JSON. *)
Record response : Type := Response {
  status_code : Z;
  json : option value
}.

(** The oracle.  [time_time k] is what the [k]-th call of [time.time()]
    returns; [requests_send n r] is the outcome of request [r] when it is the
    [n]-th request the process issues: a response, or a raised exception. *)
Record world : Type := World {
  time_time : nat -> float;
  requests_send : nat -> request -> result response
}.

(** ** Console output: one constructor per [print] statement, carrying the
    values the statement formats. *)

Inductive msg : Type :=
  | MsgRule
  | MsgBanner
  | MsgChecking
  | MsgServerDown
  | MsgStartHint
  | MsgServerUp
  | MsgTesting (text_size : string) (text_length : nat)
  | MsgMode (enhanced : bool)
  | MsgTime (t : float)
  | MsgOriginal (v : value)
  | MsgHumanized (v : value)
  | MsgSpeedDifference (speedup : float)
  | MsgStatusError (status : Z)
  | MsgTimedOut
  | MsgException (e : exn)
  | MsgSummaryTitle
  | MsgTableHeader
  | MsgDashes
  | MsgRow (size : string) (len : nat) (fast enhanced speedup : float)
  | MsgTotal (total_fast total_enhanced avg_speedup : float)
  | MsgRecommendation
  | MsgUseFast (avg_speedup : float)
  | MsgOnlyEnhanced
  | MsgComplete
  | MsgUsingServer (url : string).

(** ** The sample texts *)

Definition TEXT_SHORT : string :=
  "This is an AI-generated paragraph that needs to be humanized. It contains typical patterns found in machine learning outputs.".

Definition TEXT_MEDIUM : string :=
  "Artificial intelligence has become increasingly prevalent in modern society, with applications ranging from natural language processing to computer vision. 
    The development of deep learning models has revolutionized the field, enabling machines to perform complex tasks with remarkable accuracy. 
    However, the generated text often exhibits patterns that distinguish it from human writing, necessitating the use of specialized tools for humanization.".

Definition TEXT_LONG : string :=
  "The rapid advancement of artificial intelligence technologies has fundamentally transformed the landscape of modern computing and digital communication. 
    Machine learning algorithms, particularly those based on deep neural networks, have demonstrated remarkable capabilities in processing and generating natural language. 
    These systems are extensively utilized across various domains, including customer service automation, content generation, and information retrieval. 
    However, the output produced by these models frequently exhibits distinctive linguistic patterns and stylistic characteristics that differentiate it from authentic human writing. 
    This distinction arises from the underlying computational mechanisms and training methodologies employed in developing these systems. 
    Consequently, texts generated purely through artificial means may be readily identifiable by discerning readers or specialized detection algorithms. 
    The development of humanization techniques has become increasingly important for ensuring that automatically generated content maintains an authentic and natural appearance. 
    Various approaches have been proposed to address this challenge, ranging from simple rule-based transformations to sophisticated neural network-based methods.".

Definition TEST_TEXTS : gmap string string :=
  {[ "short" := TEXT_SHORT; "medium" := TEXT_MEDIUM; "long" := TEXT_LONG ]}.

(** ** Program state *)

(** One element of [self.results]: the dict with keys ["size"], ["length"],
    ["fast_mode"] and ["enhanced_mode"]. *)
Record entry : Type := Entry {
  e_size : string;
  e_length : nat;
  e_fast_mode : float;
  e_enhanced_mode : float
}.

(** The [HumanizerBenchmark] instance ([base_url], [results]) together with
    the bookkeeping of the embedding: how often the clock was read, the
    requests issued so far and the lines printed so far (oldest first). *)
Record state : Type := State {
  base_url : string;
  results : list entry;
  clock_reads : nat;
  sent : list request;
  stdout : list msg
}.

(** [HumanizerBenchmark.__init__] *)
Definition init (url : string) : state :=
  {| base_url := url; results := []; clock_reads := 0; sent := []; stdout := [] |}.

Definition default_base_url : string := "http://localhost:5000".

(** ** The monad *)

Definition M (A : Type) : Type := state -> result A * state.

#[global] Instance M_ret : MRet M := fun A a s => (Ok a, s).
#[global] Instance M_bind : MBind M := fun A B f m s =>
  match m s with
  | (Ok a, s') => f a s'
  | (Raise e, s') => (Raise e, s')
  end.

Definition raise {A : Type} (e : exn) : M A := fun s => (Raise e, s).

(** [try: body  except ...: handler e] where the handler covers the
    exceptions that [catches] accepts; others propagate. *)
Definition try_except {A : Type} (body : M A) (catches : exn -> bool)
    (handler : exn -> M A) : M A := fun s =>
  match body s with
  | (Ok a, s') => (Ok a, s')
  | (Raise e, s') => if catches e then handler e s' else (Raise e, s')
  end.

(** [for x in xs: body x] *)
Fixpoint for_each {A : Type} (xs : list A) (body : A -> M unit) : M unit :=
  match xs with
  | [] => mret tt
  | x :: xs' => body x ;; for_each xs' body
  end.

Definition print (m : msg) : M unit := fun s =>
  (Ok tt, {| base_url := base_url s; results := results s;
             clock_reads := clock_reads s; sent := sent s;
             stdout := stdout s ++ [m] |}).

(** [print] of a line that formats the value [v]: [UnicodeEncodeError] when
    the console cannot encode it, and then nothing of the line is written. *)
Definition print_value (line : value -> msg) (v : value) : M unit :=
  if printable v then print (line v) else raise UnicodeEncodeError.

Definition get_base_url : M string := fun s => (Ok (base_url s), s).
Definition get_results : M (list entry) := fun s => (Ok (results s), s).

(** [self.results.append(e)] *)
Definition results_append (e : entry) : M unit := fun s =>
  (Ok tt, {| base_url := base_url s; results := results s ++ [e];
             clock_reads := clock_reads s; sent := sent s;
             stdout := stdout s |}).

(** ** Python primitives the program uses *)

(** [x / y] on floats: raises [ZeroDivisionError] on a zero divisor. *)
Definition truediv (x y : float) : M float :=
  if (y =? 0)%float then raise ZeroDivisionError else mret (x / y)%float.

(** [sum(xs)]: adds the items to the start value 0 from left to right. *)
Definition py_sum (xs : list float) : float :=
  fold_left PrimFloat.add xs 0%float.

(** [v.get(key, default)]: only a dict has the method. *)
Definition dict_get (v : value) (key : string) (default : value) : M value :=
  match v with
  | VDict d => mret (match d !! key with Some x => x | None => default end)
  | _ => raise AttributeError
  end.

(** [d[key]] on a dict of strings. *)
Definition dict_item (d : gmap string string) (key : string) : M string :=
  match d !! key with
  | Some x => mret x
  | None => raise (KeyError key)
  end.

Section Program.

Variable W : world.

(** [time.time()] *)
Definition time_now : M float := fun s =>
  (Ok (time_time W (clock_reads s)),
   {| base_url := base_url s; results := results s;
      clock_reads := S (clock_reads s); sent := sent s;
      stdout := stdout s |}).

(** Issue a request: it is recorded, then the world answers. *)
Definition send (r : request) : M response := fun s =>
  (requests_send W (length (sent s)) r,
   {| base_url := base_url s; results := results s;
      clock_reads := clock_reads s; sent := sent s ++ [r];
      stdout := stdout s |}).

Definition requests_get (url : string) (timeout : Z) : M response :=
  send {| req_method := GET; req_url := url; req_json := None;
          req_timeout := timeout |}.

Definition requests_post (url : string) (payload : gmap string value)
    (timeout : Z) : M response :=
  send {| req_method := POST; req_url := url; req_json := Some payload;
          req_timeout := timeout |}.

(** [response.json()]: raises [JSONDecodeError] on a body that does not
    parse. *)
Definition response_json (r : response) : M value :=
  match json r with
  | Some v => mret v
  | None => raise JSONDecodeError
  end.

(** ** [HumanizerBenchmark.check_server] *)
Definition check_server : M bool :=
  try_except
    (url ← get_base_url;
     response ← requests_get (url ++ "/health") 5;
     mret (status_code response =? 200)%Z)
    (fun e => is_ConnectionError e || is_Timeout e)
    (fun _ => mret false).

(** ** [HumanizerBenchmark.benchmark_humanization] *)

Definition humanize_payload (text : string) (enhanced : bool)
    : gmap string value :=
  {[ "text" := VStr text;
     "paraphrasing" := VBool true;
     "enhanced" := VBool enhanced ]}.

Definition benchmark_humanization (text text_name : string) (enhanced : bool)
    : M (float * value) :=
  let payload := humanize_payload text enhanced in
  try_except
    (start_time ← time_now;
     url ← get_base_url;
     response ← requests_post (url ++ "/humanize") payload 60;
     end_time ← time_now;
     let elapsed_time := (end_time - start_time)%float in
     if (status_code response =? 200)%Z then
       data ← response_json response;
       statistics ← dict_get data "statistics" empty_dict;
       mret (elapsed_time, statistics)
     else
       print (MsgStatusError (status_code response));;
       mret (elapsed_time, empty_dict))
    (fun _ => true)
    (fun e =>
       if is_Timeout e then
         print MsgTimedOut;;
         mret (60%float, empty_dict)
       else
         print (MsgException e);;
         mret (0%float, empty_dict)).


(** The conditional expression [num / den if den > 0 else 1], which the
    program evaluates for each text, for each summary row and for the totals.
    The integer [1] of the [else] branch is the float [1.0] here: the two
    compare equal and format alike. *)
Definition speedup_of (num den : float) : M float :=
  if (0 <? den)%float then truediv num den else mret 1%float.

(** ** [HumanizerBenchmark.print_summary] *)
Definition print_summary : M unit :=
  print MsgRule;;
  print MsgSummaryTitle;;
  print MsgRule;;
  print MsgTableHeader;;
  print MsgDashes;;
  rs ← get_results;
  for_each rs (fun result =>
    let fast := e_fast_mode result in
    let enhanced := e_enhanced_mode result in
    speedup ← speedup_of enhanced fast;
    print (MsgRow (e_size result) (e_length result) fast enhanced speedup));;
  rs ← get_results;
  let total_fast := py_sum (map e_fast_mode rs) in
  let total_enhanced := py_sum (map e_enhanced_mode rs) in
  avg_speedup ← speedup_of total_enhanced total_fast;
  print MsgDashes;;
  print (MsgTotal total_fast total_enhanced avg_speedup);;
  print MsgRecommendation;;
  print (MsgUseFast avg_speedup);;
  print MsgOnlyEnhanced;;
  print MsgComplete.

(** ** [HumanizerBenchmark.run_benchmark] *)

(** The two [print]s under [if stats_fast:] and [if stats_enhanced:]. *)
Definition report_statistics (stats : value) : M unit :=
  if truthy stats then
    original ← dict_get stats "original_length" (VInt 0);
    print_value MsgOriginal original;;
    final ← dict_get stats "final_length" (VInt 0);
    print_value MsgHumanized final
  else mret tt.

(** The body of the [for text_size in ...] loop, over the dict of texts. *)
Definition benchmark_text (texts : gmap string string) (text_size : string)
    : M unit :=
  text ← dict_item texts text_size;
  let text_length := String.length text in
  print MsgRule;;
  print (MsgTesting text_size text_length);;
  print MsgRule;;
  print (MsgMode false);;
  fast ← benchmark_humanization text text_size false;
  let time_fast := fst fast in
  let stats_fast := snd fast in
  print (MsgTime time_fast);;
  report_statistics stats_fast;;
  print (MsgMode true);;
  enhanced ← benchmark_humanization text text_size true;
  let time_enhanced := fst enhanced in
  let stats_enhanced := snd enhanced in
  print (MsgTime time_enhanced);;
  report_statistics stats_enhanced;;
  (if (0 <? time_enhanced)%float then
     speedup ← speedup_of time_enhanced time_fast;
     print (MsgSpeedDifference speedup)
   else mret tt);;
  results_append {| e_size := text_size; e_length := text_length;
                    e_fast_mode := time_fast;
                    e_enhanced_mode := time_enhanced |}.

(** [run_benchmark] with the dict of texts and the list the loop walks taken
    as arguments. *)
Definition run_benchmark_on (texts : gmap string string)
    (order : list string) : M unit :=
  print MsgRule;;
  print MsgBanner;;
  print MsgRule;;
  print MsgChecking;;
  up ← check_server;
  if negb up then
    print MsgServerDown;;
    print MsgStartHint
  else
    print MsgServerUp;;
    for_each order (benchmark_text texts);;
    print_summary.

Definition run_benchmark : M unit :=
  run_benchmark_on TEST_TEXTS ["short"; "medium"; "long"].

End Program.

(** [python benchmark.py [url]]: [main], given [sys.argv]. *)
Definition main (W : world) (argv : list string) : result unit * state :=
  let benchmark := init default_base_url in
  match argv with
  | _ :: url :: _ =>
      run_benchmark W
        {| base_url := url; results := results benchmark;
           clock_reads := clock_reads benchmark; sent := sent benchmark;
           stdout := stdout benchmark ++ [MsgUsingServer url] |}
  | _ => run_benchmark W benchmark
  end.

(** * Specification-level definitions *)

(** Speedup of a pair of elapsed times: enhanced over fast, and 1 when the
    fast time is not strictly positive. *)
Definition speedup (enhanced fast : float) : float :=
  if (0 <? fast)%float then (enhanced / fast)%float else 1%float.

(** Sum of one elapsed-time column over the records, in record order. *)
Definition total (column : entry -> float) (rs : list entry) : float :=
  fold_left (fun acc r => (acc + column r)%float) rs 0%float.

(** The table rows and the totals rows among printed lines. *)
Definition row_of (m : msg) : option (string * nat * float * float * float) :=
  match m with
  | MsgRow s l f e x => Some (s, l, f, e, x)
  | _ => None
  end.

Definition totals_of (m : msg) : option (float * float * float) :=
  match m with
  | MsgTotal f e x => Some (f, e, x)
  | _ => None
  end.

Definition summary_row (r : entry) : msg :=
  MsgRow (e_size r) (e_length r) (e_fast_mode r) (e_enhanced_mode r)
    (speedup (e_enhanced_mode r) (e_fast_mode r)).

Definition summary_lines (rs : list entry) : list msg :=
  let total_fast := total e_fast_mode rs in
  let total_enhanced := total e_enhanced_mode rs in
  [MsgRule; MsgSummaryTitle; MsgRule; MsgTableHeader; MsgDashes]
  ++ map summary_row rs
  ++ [MsgDashes;
      MsgTotal total_fast total_enhanced (speedup total_enhanced total_fast);
      MsgRecommendation;
      MsgUseFast (speedup total_enhanced total_fast);
      MsgOnlyEnhanced;
      MsgComplete].

(** The state after printing the lines [out]. *)
Definition emit (s : state) (out : list msg) : state :=
  {| base_url := base_url s; results := results s;
     clock_reads := clock_reads s; sent := sent s;
     stdout := stdout s ++ out |}.

(** The request [check_server] issues and the request a timed call issues. *)
Definition health_request (url : string) : request :=
  {| req_method := GET; req_url := url ++ "/health"; req_json := None;
     req_timeout := 5 |}.

Definition humanize_request (url text : string) (enhanced : bool) : request :=
  {| req_method := POST; req_url := url ++ "/humanize";
     req_json := Some (humanize_payload text enhanced); req_timeout := 60 |}.

(** What the availability check makes of the outcome of its request. *)
Definition availability (outcome : result response) : result bool :=
  match outcome with
  | Ok r => Ok (status_code r =? 200)%Z
  | Raise e => if is_ConnectionError e || is_Timeout e then Ok false else Raise e
  end.

(** The Run Result of one timed call, by the outcome of its request and the
    clock readings before and after it:
    - status 200 and a body that parses to a JSON object: the measured time
      and the value under ["statistics"], the empty mapping when absent;
    - status 200 and a body that does not parse, or parses to something that
      is not an object: zero and the empty mapping;
    - any other status: the measured time and the empty mapping;
    - a timeout: the ceiling 60 and the empty mapping;
    - any other exception: zero and the empty mapping. *)
Definition run_result (start_time end_time : float)
    (outcome : result response) : float * value :=
  match outcome with
  | Ok r =>
      if (status_code r =? 200)%Z then
        match json r with
        | Some (VDict d) =>
            ((end_time - start_time)%float,
             match d !! "statistics" with Some v => v | None => empty_dict end)
        | Some _ => (0%float, empty_dict)
        | None => (0%float, empty_dict)
        end
      else ((end_time - start_time)%float, empty_dict)
  | Raise e =>
      if is_Timeout e then (60%float, empty_dict) else (0%float, empty_dict)
  end.

(** Clock readings a timed call takes: the second one only when the request
    returns a response. *)
Definition reads_of (outcome : result response) : nat :=
  match outcome with Ok _ => 2 | Raise _ => 1 end.

(** What a timed call prints. *)
Definition call_output (outcome : result response) : list msg :=
  match outcome with
  | Ok r =>
      if (status_code r =? 200)%Z then
        match json r with
        | Some (VDict _) => []
        | Some _ => [MsgException AttributeError]
        | None => [MsgException JSONDecodeError]
        end
      else [MsgStatusError (status_code r)]
  | Raise e => if is_Timeout e then [MsgTimedOut] else [MsgException e]
  end.

(** The state after [reads] clock readings, the requests [reqs], the appended
    records [ents] and the printed lines [out]. *)
Definition advance (s : state) (reads : nat) (reqs : list request)
    (ents : list entry) (out : list msg) : state :=
  {| base_url := base_url s; results := results s ++ ents;
     clock_reads := reads + clock_reads s; sent := sent s ++ reqs;
     stdout := stdout s ++ out |}.

(** The statistics a timed call attaches to its Run Result. *)
Definition reported_statistics (outcome : result response) : value :=
  snd (run_result 0%float 0%float outcome).

(** How printing a statistics value under [if stats:] ends.  A falsy value is
    skipped.  A truthy value that is not a dict has no [.get]:
    [AttributeError].  For a dict, the values under ["original_length"] and
    ["final_length"] (0 when absent) are printed, which raises
    [UnicodeEncodeError] when one of them cannot be encoded. *)
Definition stats_result (stats : value) : result unit :=
  if truthy stats then
    match stats with
    | VDict d =>
        if printable
             (match d !! "original_length" with Some x => x | None => VInt 0 end)
           && printable
                (match d !! "final_length" with Some x => x | None => VInt 0 end)
        then Ok tt
        else Raise UnicodeEncodeError
    | _ => Raise AttributeError
    end
  else Ok tt.

(** One pass of the loop body for the text [text] named [text_size], started
    after [k] clock readings and [n] requests: the record it appends (or the
    exception that ends it), the clock readings it takes and the requests it
    issues. *)
Definition text_outcome (W : world) (url : string) (k n : nat)
    (text_size text : string) : result entry * nat * list request :=
  let fast_request := humanize_request url text false in
  let enhanced_request := humanize_request url text true in
  let o1 := requests_send W n fast_request in
  let r1 := run_result (time_time W k) (time_time W (S k)) o1 in
  let k1 := reads_of o1 + k in
  let o2 := requests_send W (S n) enhanced_request in
  let r2 := run_result (time_time W k1) (time_time W (S k1)) o2 in
  match stats_result (snd r1) with
  | Raise x => (Raise x, reads_of o1, [fast_request])
  | Ok _ =>
      match stats_result (snd r2) with
      | Raise x =>
          (Raise x, reads_of o2 + reads_of o1,
           [fast_request; enhanced_request])
      | Ok _ =>
          (Ok {| e_size := text_size; e_length := String.length text;
                 e_fast_mode := fst r1; e_enhanced_mode := fst r2 |},
           reads_of o2 + reads_of o1, [fast_request; enhanced_request])
      end
  end.

(** The whole loop over [order]: how it ends, the records appended, the clock
    readings taken and the requests issued. *)
Fixpoint sweep (W : world) (url : string) (texts : gmap string string)
    (order : list string) (k n : nat)
    : result unit * list entry * nat * list request :=
  match order with
  | [] => (Ok tt, [], 0, [])
  | text_size :: rest =>
      match texts !! text_size with
      | None => (Raise (KeyError text_size), [], 0, [])
      | Some text =>
          match text_outcome W url k n text_size text with
          | (Raise e, reads, reqs) => (Raise e, [], reads, reqs)
          | (Ok e, reads, reqs) =>
              match sweep W url texts rest (reads + k) (S (S n)) with
              | (r, es, reads', reqs') =>
                  (r, e :: es, reads' + reads, reqs ++ reqs')
              end
          end
      end
  end.

(** The records a loop over [order] appends when nothing interrupts it,
    started after [k] clock readings and [n] requests: one per text, in
    order, with the text's name, its length, and the elapsed times of its
    fast call (flag false) and of its enhanced call (flag true). *)
Fixpoint expected_records (W : world) (url : string)
    (texts : gmap string string) (order : list string) (k n : nat)
    : list entry :=
  match order with
  | [] => []
  | text_size :: rest =>
      let text := default "" (texts !! text_size) in
      let o1 := requests_send W n (humanize_request url text false) in
      let k1 := reads_of o1 + k in
      let o2 := requests_send W (S n) (humanize_request url text true) in
      let k2 := reads_of o2 + k1 in
      {| e_size := text_size;
         e_length := String.length text;
         e_fast_mode :=
           fst (run_result (time_time W k) (time_time W (S k)) o1);
         e_enhanced_mode :=
           fst (run_result (time_time W k1) (time_time W (S k1)) o2) |}
      :: expected_records W url texts rest k2 (S (S n))
  end.

(** The POST requests a complete loop over [order] issues, in order. *)
Definition planned_requests (url : string) (texts : gmap string string)
    (order : list string) : list request :=
  flat_map
    (fun text_size =>
       match texts !! text_size with
       | Some text =>
           [humanize_request url text false; humanize_request url text true]
       | None => []
       end)
    order.

(** ** Timed calls

    A timed call of a run: the number of clock readings taken before it, its
    place among the requests of the process, and its request. *)
Record call : Type := Call {
  c_start : nat;
  c_index : nat;
  c_request : request
}.

Definition call_outcome (W : world) (c : call) : result response :=
  requests_send W (c_index c) (c_request c).

(** The difference of the clock readings [k + 1] and [k]. *)
Definition measured (W : world) (k : nat) : float :=
  (time_time W (S k) - time_time W k)%float.

(** The outcomes after which the measured time is returned: a response with
    a status other than 200, or with status 200 and a JSON object as body. *)
Definition keeps_time (outcome : result response) : bool :=
  match outcome with
  | Ok r =>
      negb (status_code r =? 200)%Z
      || match json r with Some (VDict _) => true | _ => false end
  | Raise _ => false
  end.

(** The elapsed time of a timed call: 60.0 after a timeout, 0.0 after any
    other exception, the measured time after an outcome that keeps it, and
    0.0 after a 200 response without a JSON object. *)
Definition call_time (W : world) (c : call) : float :=
  match call_outcome W c with
  | Raise e => if is_Timeout e then 60%float else 0%float
  | Ok _ =>
      if keeps_time (call_outcome W c) then measured W (c_start c)
      else 0%float
  end.

(** The timed calls that issue the requests [reqs] one after the other,
    the first after [k] clock readings and [n] requests: each call starts
    where the one before it stopped reading the clock. *)
Fixpoint calls_from (W : world) (k n : nat) (reqs : list request)
    : list call :=
  match reqs with
  | [] => []
  | q :: rest =>
      {| c_start := k; c_index := n; c_request := q |}
      :: calls_from W (reads_of (requests_send W n q) + k) (S n) rest
  end.

(** An elapsed time between zero and the 60-second ceiling. *)
Definition within_ceiling (t : float) : bool :=
  (0 <=? t)%float && (t <=? 60)%float.

(** * Scenarios *)

Definition statistics_body : value :=
  VDict {[ "humanized_text" := VStr "Hello.";
           "statistics" :=
             VDict {[ "original_length" := VInt 125;
                      "final_length" := VInt 131 ]} ]}.

(** A healthy service; the clock advances a few seconds per reading. *)
Definition world_steady : world :=
  {| time_time := fun k =>
       match k with
       | 0 => 100 | 1 => 101.5 | 2 => 102 | 3 => 104 | 4 => 110 | 5 => 113
       | _ => 113.25
       end%float;
     requests_send := fun _ _ =>
       Ok {| status_code := 200; json := Some statistics_body |} |}.

(** A healthy service whose first answer takes 61 seconds to arrive. *)
Definition world_slow : world :=
  {| time_time := fun k => match k with 0 => 0 | _ => 61 end%float;
     requests_send := fun _ _ =>
       Ok {| status_code := 200; json := Some statistics_body |} |}.

(** A service that answers 200 with a body that is not JSON, two seconds
    after the request. *)
Definition world_html : world :=
  {| time_time := fun k => match k with 0 => 10 | _ => 12 end%float;
     requests_send := fun _ _ => Ok {| status_code := 200; json := None |} |}.

(** A service whose JSON answers carry no ["statistics"] key. *)
Definition world_no_statistics : world :=
  {| time_time := fun k => match k with 0 => 10 | _ => 12 end%float;
     requests_send := fun _ _ =>
       Ok {| status_code := 200;
             json := Some (VDict {[ "humanized_text" := VStr "Hello." ]}) |} |}.

(** A service that reports its statistics as a string. *)
Definition world_text_statistics : world :=
  {| time_time := fun k => match k with 0 => 10 | _ => 12 end%float;
     requests_send := fun _ _ =>
       Ok {| status_code := 200;
             json := Some (VDict {[ "statistics" := VStr "n/a" ]}) |} |}.

(** The JSON string ["\ud800"]: a lone surrogate. *)
Definition lone_surrogate : string :=
  String (Ascii.ascii_of_nat 237)
    (String (Ascii.ascii_of_nat 160) (String (Ascii.ascii_of_nat 128) "")).

(** A service whose statistics hold a string that cannot be printed. *)
Definition world_surrogate : world :=
  {| time_time := fun k => match k with 0 => 10 | _ => 12 end%float;
     requests_send := fun _ _ =>
       Ok {| status_code := 200;
             json := Some (VDict {[ "statistics" :=
                                      VDict {[ "original_length" :=
                                                 VStr lone_surrogate ]} ]}) |} |}.

(** A service that is down part of the time: the third timed call times out
    after 75 seconds, the fourth is refused, the fifth is answered with
    status 500. *)
Definition world_flaky : world :=
  {| time_time := fun k =>
       match k with
       | 0 => 10 | 1 => 11 | 2 => 20 | 3 => 22 | 4 => 30 | 5 => 105
       | 6 => 106 | 7 => 106.5 | _ => 107
       end%float;
     requests_send := fun n r =>
       match n with
       | 3 => Raise ReadTimeout
       | 4 => Raise ConnectionError
       | 5 => Ok {| status_code := 500; json := None |}
       | _ => Ok {| status_code := 200; json := Some statistics_body |}
       end |}.

(** Nothing listens at the address: every request is refused. *)
Definition world_down : world :=
  {| time_time := fun _ => 0%float;
     requests_send := fun _ _ => Raise ConnectionError |}.

(** The base URL has no scheme that [requests] knows, as in
    [python benchmark.py localhost:5000]: every request raises
    [InvalidSchema]. *)
Definition world_bad_scheme : world :=
  {| time_time := fun _ => 0%float;
     requests_send := fun _ _ => Raise (RequestException "InvalidSchema") |}.

(** * Definitions for the transcript of a run *)


(** The lines printed under [if stats:] for a statistics value. *)
Definition stats_lines (stats : value) : list msg :=
  match stats with
  | VDict d =>
      let original :=
        match d !! "original_length" with Some x => x | None => VInt 0 end in
      let final :=
        match d !! "final_length" with Some x => x | None => VInt 0 end in
      if truthy stats then
        if printable original then
          MsgOriginal original
          :: (if printable final then [MsgHumanized final] else [])
        else []
      else []
  | _ => []
  end.

(** The line printed under [if time_enhanced > 0:]. *)
Definition speed_lines (time_fast time_enhanced : float) : list msg :=
  if (0 <? time_enhanced)%float
  then [MsgSpeedDifference (speedup time_enhanced time_fast)]
  else [].

(** What one pass of the loop body prints, up to the point where it ends. *)
Definition text_lines (W : world) (url : string) (k n : nat)
    (text_size text : string) : list msg :=
  let o1 := requests_send W n (humanize_request url text false) in
  let r1 := run_result (time_time W k) (time_time W (S k)) o1 in
  let k1 := reads_of o1 + k in
  let o2 := requests_send W (S n) (humanize_request url text true) in
  let r2 := run_result (time_time W k1) (time_time W (S k1)) o2 in
  [MsgRule; MsgTesting text_size (String.length text); MsgRule; MsgMode false]
  ++ call_output o1 ++ [MsgTime (fst r1)] ++ stats_lines (snd r1)
  ++ match stats_result (snd r1) with
     | Raise _ => []
     | Ok _ =>
         [MsgMode true] ++ call_output o2 ++ [MsgTime (fst r2)]
         ++ stats_lines (snd r2)
         ++ match stats_result (snd r2) with
            | Raise _ => []
            | Ok _ => speed_lines (fst r1) (fst r2)
            end
     end.

(** What the loop over [order] prints. *)
Fixpoint sweep_lines (W : world) (url : string) (texts : gmap string string)
    (order : list string) (k n : nat) : list msg :=
  match order with
  | [] => []
  | text_size :: rest =>
      match texts !! text_size with
      | None => []
      | Some text =>
          text_lines W url k n text_size text
          ++ match text_outcome W url k n text_size text with
             | (Ok _, reads, _) =>
                 sweep_lines W url texts rest (reads + k) (S (S n))
             | (Raise _, _, _) => []
             end
      end
  end.

(** What [run_benchmark] prints, from the state [s]. *)
Definition run_lines (W : world) (texts : gmap string string)
    (order : list string) (s : state) : list msg :=
  [MsgRule; MsgBanner; MsgRule; MsgChecking]
  ++ match availability
             (requests_send W (length (sent s))
                (health_request (base_url s))) with
     | Raise _ => []
     | Ok false => [MsgServerDown; MsgStartHint]
     | Ok true =>
         [MsgServerUp]
         ++ sweep_lines W (base_url s) texts order (clock_reads s)
              (S (length (sent s)))
         ++ match sweep W (base_url s) texts order (clock_reads s)
                    (S (length (sent s))) with
            | (Ok _, es, _, _) => summary_lines (results s ++ es)
            | (Raise _, _, _, _) => []
            end
     end.

(** The elapsed times and the speed differences among printed lines. *)
Definition time_of (m : msg) : option float :=
  match m with MsgTime t => Some t | _ => None end.

Definition speed_of (m : msg) : option float :=
  match m with MsgSpeedDifference x => Some x | _ => None end.

(** The lines of the progress log, as opposed to those of the summary table. *)
Definition progress_line (m : msg) : bool :=
  match m with
  | MsgRow _ _ _ _ _ | MsgTotal _ _ _ | MsgUseFast _ => false
  | _ => true
  end.

(** The elapsed times and the speed difference a record stands for. *)
Definition entry_times (e : entry) : list float :=
  [e_fast_mode e; e_enhanced_mode e].

Definition entry_speed (e : entry) : list float :=
  if (0 <? e_enhanced_mode e)%float
  then [speedup (e_enhanced_mode e) (e_fast_mode e)]
  else [].

(** A table row and the totals row, as the values they show. *)
Definition row_values (r : entry)
    : string * nat * float * float * float :=
  (e_size r, e_length r, e_fast_mode r, e_enhanced_mode r,
   speedup (e_enhanced_mode r) (e_fast_mode r)).

Definition totals_values (rs : list entry) : float * float * float :=
  (total e_fast_mode rs, total e_enhanced_mode rs,
   speedup (total e_enhanced_mode rs) (total e_fast_mode rs)).

(** * Proofs *)

(** ** Floats *)

Lemma positive_nonzero (x : float) :
  (0 <? x)%float = true -> (x =? 0)%float = false.
Proof.
  rewrite FloatAxioms.ltb_spec, FloatAxioms.eqb_spec.
  change (Prim2SF 0) with (S754_zero false).
  destruct (Prim2SF x) as [sg | sg | | sg m e]; try destruct sg; cbn; congruence.
Qed.

(** ** The monad *)

Lemma bind_run {A B : Type} (m : M A) (f : A -> M B) (s : state) :
  (m ≫= f) s =
  match m s with
  | (Ok a, s') => f a s'
  | (Raise e, s') => (Raise e, s')
  end.
Proof. reflexivity. Qed.

Lemma emit_nil (s : state) : emit s [] = s.
Proof. destruct s. unfold emit. cbn. by rewrite app_nil_r. Qed.

Lemma emit_emit (s : state) (a b : list msg) :
  emit (emit s a) b = emit s (a ++ b).
Proof. unfold emit. cbn. by rewrite app_assoc. Qed.

Lemma print_run (m : msg) (s : state) : print m s = (Ok tt, emit s [m]).
Proof. reflexivity. Qed.

(** ** The summary *)

Lemma speedup_of_run (num den : float) (s : state) :
  speedup_of num den s = (Ok (speedup num den), s).
Proof.
  unfold speedup_of, speedup, truediv.
  destruct (0 <? den)%float eqn:Hpos; [| reflexivity].
  by rewrite (positive_nonzero _ Hpos).
Qed.

Lemma py_sum_total (column : entry -> float) (rs : list entry) :
  py_sum (map column rs) = total column rs.
Proof.
  unfold py_sum, total. generalize 0%float as acc.
  induction rs as [| r rs IH]; intros acc; cbn; [reflexivity | apply IH].
Qed.

Lemma summary_rows_run (rs : list entry) (s : state) :
  for_each rs (fun result =>
    let fast := e_fast_mode result in
    let enhanced := e_enhanced_mode result in
    speedup ← speedup_of enhanced fast;
    print (MsgRow (e_size result) (e_length result) fast enhanced speedup)) s
  = (Ok tt, emit s (map summary_row rs)).
Proof.
  revert s. induction rs as [| r rs IH]; intros s; cbn [for_each map].
  - by rewrite emit_nil.
  - rewrite bind_run. cbn zeta. rewrite bind_run, speedup_of_run, print_run.
    rewrite IH, emit_emit. reflexivity.
Qed.

Lemma print_summary_run (s : state) :
  print_summary s = (Ok tt, emit s (summary_lines (results s))).
Proof.
  unfold print_summary.
  repeat (rewrite bind_run, print_run).
  rewrite bind_run. cbn [get_results emit results].
  rewrite bind_run, summary_rows_run.
  rewrite bind_run. cbn [get_results emit results]. cbn zeta.
  rewrite !py_sum_total.
  rewrite bind_run, speedup_of_run.
  repeat (rewrite bind_run, print_run).
  rewrite print_run. rewrite !emit_emit. reflexivity.
Qed.

(** C1. [print_summary] never raises, and the table it prints has one row
    per record of [self.results], in order, whose speedup is the enhanced
    time divided by the fast time when the fast time is strictly positive and
    1 otherwise (see [speedup]); so a zero fast time, and a result list whose
    times are all zero, give rows with speedup 1 and no division error. *)
Theorem print_summary_row_speedups (s : state) :
  exists out : list msg,
    print_summary s = (Ok tt, emit s out) /\
    omap row_of out =
      map (fun r => (e_size r, e_length r, e_fast_mode r, e_enhanced_mode r,
                     if (0 <? e_fast_mode r)%float
                     then (e_enhanced_mode r / e_fast_mode r)%float
                     else 1%float))
          (results s).
Proof.
  exists (summary_lines (results s)). split; [apply print_summary_run |].
  unfold summary_lines. cbn zeta. rewrite !omap_app.
  cbn [omap list_omap row_of app]. rewrite ?app_nil_r.
  induction (results s) as [| r rs IH]; [reflexivity |].
  cbn [map omap list_omap summary_row row_of]. unfold speedup at 1.
  by rewrite IH.
Qed.

(** C2. [print_summary] prints exactly one totals line: the fast total is the
    sum of the fast-mode times of all records, the enhanced total the sum of
    their enhanced-mode times, and the overall speedup is the enhanced total
    divided by the fast total when the fast total is strictly positive and 1
    otherwise. *)
Theorem print_summary_totals (s : state) :
  exists out : list msg,
    print_summary s = (Ok tt, emit s out) /\
    omap totals_of out =
      [(total e_fast_mode (results s),
        total e_enhanced_mode (results s),
        if (0 <? total e_fast_mode (results s))%float
        then (total e_enhanced_mode (results s)
              / total e_fast_mode (results s))%float
        else 1%float)].
Proof.
  exists (summary_lines (results s)). split; [apply print_summary_run |].
  unfold summary_lines. cbn zeta. rewrite !omap_app.
  cbn [omap list_omap totals_of app].
  replace (omap totals_of (map summary_row (results s))) with
    (@nil (float * float * float)); [reflexivity |].
  induction (results s) as [| r rs IH]; [reflexivity | exact IH].
Qed.

Ltac run_steps := repeat (rewrite ?bind_run, ?print_run; cbn).

(** ** State bookkeeping *)

Lemma state_eq (s s' : state) :
  base_url s = base_url s' -> results s = results s' ->
  clock_reads s = clock_reads s' -> sent s = sent s' ->
  stdout s = stdout s' -> s = s'.
Proof. destruct s, s'; cbn; intros; subst; reflexivity. Qed.

Lemma outcome_eq {A : Type} (r : result A) (s s' : state) :
  base_url s = base_url s' -> results s = results s' ->
  clock_reads s = clock_reads s' -> sent s = sent s' ->
  stdout s = stdout s' -> (r, s) = (r, s').
Proof. intros. f_equal. by apply state_eq. Qed.

Ltac output_last :=
  apply outcome_eq; cbn; [| | | | reflexivity];
  rewrite ?app_nil_r; try reflexivity; try lia.
Ltac same_state :=
  f_equal; apply state_eq; cbn; rewrite ?app_nil_r; try reflexivity; try lia.

Lemma emit_advance (s : state) (out : list msg) :
  emit s out = advance s 0 [] [] out.
Proof. apply state_eq; cbn; by rewrite ?app_nil_r. Qed.

Lemma advance_advance (s : state) (k k' : nat) (q q' : list request)
    (e e' : list entry) (o o' : list msg) :
  advance (advance s k q e o) k' q' e' o'
  = advance s (k' + k) (q ++ q') (e ++ e') (o ++ o').
Proof. apply state_eq; cbn; rewrite ?app_assoc; try reflexivity; lia. Qed.

(** ** The availability check *)

Lemma check_server_run (W : world) (s : state) :
  check_server W s =
  (availability
     (requests_send W (length (sent s)) (health_request (base_url s))),
   advance s 0 [health_request (base_url s)] [] []).
Proof.
  unfold check_server, try_except. rewrite bind_run. cbn [get_base_url].
  rewrite bind_run. unfold requests_get, send, availability.
  fold (health_request (base_url s)).
  destruct (requests_send W (length (sent s)) (health_request (base_url s)))
    as [r | e].
  - cbn. f_equal. apply state_eq; cbn; by rewrite ?app_nil_r.
  - destruct (is_ConnectionError e || is_Timeout e); cbn;
      f_equal; apply state_eq; cbn; by rewrite ?app_nil_r.
Qed.

(** ** A timed call *)

Lemma benchmark_humanization_run (W : world) (text text_name : string)
    (enhanced : bool) (s : state) :
  let outcome :=
    requests_send W (length (sent s))
      (humanize_request (base_url s) text enhanced) in
  benchmark_humanization W text text_name enhanced s =
  (Ok (run_result (time_time W (clock_reads s))
         (time_time W (S (clock_reads s))) outcome),
   advance s (reads_of outcome)
     [humanize_request (base_url s) text enhanced] [] (call_output outcome)).
Proof.
  cbn zeta.
  unfold benchmark_humanization, try_except. rewrite bind_run.
  cbn [time_now]. rewrite bind_run. cbn [get_base_url base_url].
  rewrite bind_run. unfold requests_post, send. cbn [sent].
  fold (humanize_request (base_url s) text enhanced).
  destruct (requests_send W (length (sent s))
              (humanize_request (base_url s) text enhanced)) as [r | e].
  - rewrite bind_run. cbn [time_now clock_reads run_result call_output reads_of].
    destruct (status_code r =? 200)%Z.
    + rewrite bind_run. unfold response_json.
      destruct (json r) as [v |].
      * cbn [mret M_ret]. rewrite bind_run. unfold dict_get.
        destruct v; run_steps; same_state.
      * run_steps; same_state.
    + run_steps; same_state.
  - cbn [run_result call_output reads_of].
    destruct (is_Timeout e); run_steps; same_state.
Qed.

Lemma benchmark_humanization_at (W : world) (text text_name : string)
    (enhanced : bool) (s : state) (url : string) (k n : nat) :
  base_url s = url -> clock_reads s = k -> length (sent s) = n ->
  benchmark_humanization W text text_name enhanced s =
  (Ok (run_result (time_time W k) (time_time W (S k))
         (requests_send W n (humanize_request url text enhanced))),
   advance s (reads_of (requests_send W n (humanize_request url text enhanced)))
     [humanize_request url text enhanced] []
     (call_output (requests_send W n (humanize_request url text enhanced)))).
Proof. intros <- <- <-. apply benchmark_humanization_run. Qed.

(** ** The loop body *)

Lemma print_advance (m : msg) (s : state) :
  print m s = (Ok tt, advance s 0 [] [] [m]).
Proof. rewrite print_run. by rewrite emit_advance. Qed.

Lemma print_value_run (line : value -> msg) (v : value) (s : state) :
  print_value line v s =
  if printable v then (Ok tt, advance s 0 [] [] [line v])
  else (Raise UnicodeEncodeError, s).
Proof.
  unfold print_value. destruct (printable v); [apply print_advance |].
  reflexivity.
Qed.

Lemma report_statistics_lines (stats : value) (s : state) :
  report_statistics stats s =
  (stats_result stats, advance s 0 [] [] (stats_lines stats)).
Proof.
  unfold report_statistics, stats_result, stats_lines.
  destruct (truthy stats) eqn:Htruthy.
  - destruct stats; cbn [dict_get];
      try (unfold raise; rewrite bind_run; same_state).
    rewrite bind_run. cbn [mret M_ret]. cbn zeta.
    rewrite bind_run, print_value_run.
    destruct (printable _); [| cbn; same_state].
    rewrite bind_run. cbn [mret M_ret]. rewrite print_value_run.
    destruct (printable _); cbn [andb].
    + by rewrite advance_advance.
    + reflexivity.
  - destruct stats; cbn; same_state.
Qed.

Lemma speed_difference_lines (time_fast time_enhanced : float) (s : state) :
  (if (0 <? time_enhanced)%float then
     speedup ← speedup_of time_enhanced time_fast;
     print (MsgSpeedDifference speedup)
   else mret tt) s
  = (Ok tt, advance s 0 [] [] (speed_lines time_fast time_enhanced)).
Proof.
  unfold speed_lines. destruct (0 <? time_enhanced)%float.
  - rewrite bind_run, speedup_of_run, print_advance. reflexivity.
  - cbn. same_state.
Qed.

Lemma results_append_run (e : entry) (s : state) :
  results_append e s = (Ok tt, advance s 0 [] [e] []).
Proof. unfold results_append. same_state. Qed.

Ltac same_lines :=
  apply outcome_eq; cbn; rewrite ?app_nil_r, <- ?app_assoc; cbn;
  try reflexivity; try lia.

Lemma benchmark_text_lines (W : world) (texts : gmap string string)
    (text_size text : string) (s : state) :
  texts !! text_size = Some text ->
  benchmark_text W texts text_size s =
  match text_outcome W (base_url s) (clock_reads s) (length (sent s))
          text_size text with
  | (Ok e, reads, reqs) =>
      (Ok tt,
       advance s reads reqs [e]
         (text_lines W (base_url s) (clock_reads s) (length (sent s))
            text_size text))
  | (Raise x, reads, reqs) =>
      (Raise x,
       advance s reads reqs []
         (text_lines W (base_url s) (clock_reads s) (length (sent s))
            text_size text))
  end.
Proof.
  intros Htext. unfold benchmark_text, text_outcome, text_lines.
  rewrite bind_run. unfold dict_item. rewrite Htext. cbn [mret M_ret].
  do 4 rewrite bind_run, print_advance. rewrite !advance_advance.
  rewrite bind_run.
  rewrite (benchmark_humanization_at W text text_size false _
             (base_url s) (clock_reads s) (length (sent s)));
    [| reflexivity | reflexivity | cbn; by rewrite app_nil_r].
  set (o1 := requests_send W (length (sent s))
               (humanize_request (base_url s) text false)).
  set (r1 := run_result _ _ o1).
  cbn zeta. rewrite bind_run, print_advance, !advance_advance.
  rewrite bind_run, report_statistics_lines, advance_advance.
  destruct (stats_result (snd r1)) as [[] | x1]; [| same_lines].
  rewrite bind_run, print_advance, advance_advance, bind_run.
  rewrite (benchmark_humanization_at W text text_size true _
             (base_url s) (reads_of o1 + clock_reads s) (S (length (sent s))));
    [| reflexivity | cbn; lia
     | cbn; rewrite ?app_nil_r, length_app; cbn; lia].
  set (o2 := requests_send W (S (length (sent s)))
               (humanize_request (base_url s) text true)).
  set (r2 := run_result _ _ o2).
  cbn zeta. rewrite bind_run, print_advance, !advance_advance.
  rewrite bind_run, report_statistics_lines, advance_advance.
  destruct (stats_result (snd r2)) as [[] | x2]; [| same_lines].
  rewrite bind_run, speed_difference_lines.
  rewrite advance_advance, results_append_run, advance_advance.
  same_lines.
Qed.

Lemma benchmark_text_missing (W : world) (texts : gmap string string)
    (text_size : string) (s : state) :
  texts !! text_size = None ->
  benchmark_text W texts text_size s = (Raise (KeyError text_size), s).
Proof.
  intros Hnone. unfold benchmark_text, dict_item.
  rewrite bind_run, Hnone. reflexivity.
Qed.

Lemma text_outcome_requests (W : world) (url : string) (k n : nat)
    (text_size text : string) (e : entry) (reads : nat) (reqs : list request) :
  text_outcome W url k n text_size text = (Ok e, reads, reqs) ->
  reqs = [humanize_request url text false; humanize_request url text true].
Proof.
  unfold text_outcome.
  repeat match goal with
         | |- context [match stats_result ?v with _ => _ end] =>
             destruct (stats_result v)
         end;
    intros H; inversion H; reflexivity.
Qed.

(** ** The loop *)

Lemma for_each_lines (W : world) (texts : gmap string string)
    (order : list string) (s : state) :
  for_each order (benchmark_text W texts) s =
  match sweep W (base_url s) texts order (clock_reads s) (length (sent s))
  with
  | (r, es, reads, reqs) =>
      (r, advance s reads reqs es
            (sweep_lines W (base_url s) texts order (clock_reads s)
               (length (sent s))))
  end.
Proof.
  revert s. induction order as [| text_size rest IH]; intros s.
  - cbn. same_state.
  - cbn [for_each sweep sweep_lines]. rewrite bind_run.
    destruct (texts !! text_size) as [text |] eqn:Htext.
    + rewrite (benchmark_text_lines W texts text_size text s Htext).
      destruct (text_outcome W (base_url s) (clock_reads s) (length (sent s))
                  text_size text) as [[[e | x] reads] reqs] eqn:Hpass.
      * apply text_outcome_requests in Hpass as Hreqs.
        rewrite IH.
        replace (base_url (advance s reads reqs [e] _))
          with (base_url s) by reflexivity.
        replace (clock_reads (advance s reads reqs [e] _))
          with (reads + clock_reads s) by reflexivity.
        replace (length (sent (advance s reads reqs [e] _)))
          with (S (S (length (sent s))))
          by (subst reqs; cbn; rewrite length_app; cbn; lia).
        destruct (sweep W (base_url s) texts rest (reads + clock_reads s)
                    (S (S (length (sent s))))) as [[[r es] reads'] reqs'].
        rewrite advance_advance. reflexivity.
      * by rewrite app_nil_r.
    + rewrite (benchmark_text_missing W texts text_size s Htext). same_state.
Qed.

(** ** The whole run *)

Lemma run_benchmark_on_lines (W : world) (texts : gmap string string)
    (order : list string) (s : state) :
  let health := health_request (base_url s) in
  run_benchmark_on W texts order s =
  match availability (requests_send W (length (sent s)) health) with
  | Raise e => (Raise e, advance s 0 [health] [] (run_lines W texts order s))
  | Ok false => (Ok tt, advance s 0 [health] [] (run_lines W texts order s))
  | Ok true =>
      match sweep W (base_url s) texts order (clock_reads s)
              (S (length (sent s))) with
      | (r, es, reads, reqs) =>
          (r, advance s reads (health :: reqs) es (run_lines W texts order s))
      end
  end.
Proof.
  cbn zeta. unfold run_benchmark_on, run_lines.
  do 4 rewrite bind_run, print_advance. rewrite !advance_advance.
  rewrite bind_run, check_server_run. cbn [base_url sent advance].
  rewrite app_nil_r, advance_advance.
  destruct (availability _) as [[|] | e].
  - cbn [negb]. rewrite bind_run, print_advance, advance_advance, bind_run.
    rewrite for_each_lines.
    match goal with
    | |- context [sweep W (base_url ?st) texts order (clock_reads ?st)
                    (length (sent ?st))] =>
        replace (base_url st) with (base_url s) by reflexivity;
        replace (clock_reads st) with (clock_reads s) by reflexivity;
        replace (length (sent st)) with (S (length (sent s)))
          by (cbn; rewrite length_app; cbn; lia)
    end.
    destruct (sweep W (base_url s) texts order (clock_reads s)
                (S (length (sent s)))) as [[[[[] | x] es] reads] reqs].
    + rewrite advance_advance, print_summary_run, emit_advance, advance_advance.
      same_lines.
    + rewrite advance_advance. same_lines.
  - cbn [negb]. rewrite bind_run, !print_advance, !advance_advance.
    same_lines.
  - same_lines.
Qed.

(** ** Claims about one timed call *)

(** C3, as the code has it.  A timed call never raises: whatever the outcome
    of its request, it returns the Run Result that [run_result] tabulates.
    A 200 response whose body parses to a JSON object gives the measured
    time and the reported statistics; a 200 response whose body does not
    parse, or is not an object, gives zero and the empty mapping; any other
    status gives the measured time and the empty mapping; a timeout gives 60
    and the empty mapping; any other exception gives zero and the empty
    mapping.  The call issues exactly one request. *)
Theorem benchmark_humanization_total (W : world) (text text_name : string)
    (enhanced : bool) (s : state) :
  fst (benchmark_humanization W text text_name enhanced s) =
    Ok (run_result (time_time W (clock_reads s))
          (time_time W (S (clock_reads s)))
          (requests_send W (length (sent s))
             (humanize_request (base_url s) text enhanced))) /\
  sent (snd (benchmark_humanization W text text_name enhanced s)) =
    sent s ++ [humanize_request (base_url s) text enhanced].
Proof.
  pose proof (benchmark_humanization_run W text text_name enhanced s) as Hrun.
  cbn zeta in Hrun. rewrite Hrun. split; reflexivity.
Qed.

(** C3 as stated fails: the service answers 200 two seconds after the
    request, with a body that is not JSON; the call returns zero, not the two
    seconds it measured. *)
Lemma success_status_without_json_loses_time :
  requests_send world_html 0
    (humanize_request default_base_url TEXT_SHORT false)
    = Ok {| status_code := 200; json := None |} /\
  (time_time world_html 1 - time_time world_html 0)%float = 2%float /\
  fst (benchmark_humanization world_html TEXT_SHORT "short" false
         (init default_base_url)) = Ok (0%float, empty_dict) /\
  (0 =? 2)%float = false.
Proof. repeat split; vm_compute; reflexivity. Qed.

(** C9. A 200 response whose body does not parse as JSON does not take the
    success path: the call returns zero and the empty mapping, the Run Result
    of a transport failure, whatever time was measured. *)
Theorem unparsable_success_is_zero (W : world) (text text_name : string)
    (enhanced : bool) (s : state) (r : response) :
  requests_send W (length (sent s))
    (humanize_request (base_url s) text enhanced) = Ok r ->
  status_code r = 200%Z ->
  json r = None ->
  fst (benchmark_humanization W text text_name enhanced s)
    = Ok (0%float, empty_dict) /\
  fst (benchmark_humanization W text text_name enhanced s)
    = Ok (run_result (time_time W (clock_reads s))
            (time_time W (S (clock_reads s))) (Raise ConnectionError)).
Proof.
  intros Hsend Hstatus Hjson.
  pose proof (benchmark_humanization_run W text text_name enhanced s) as Hrun.
  cbn zeta in Hrun. rewrite Hrun, Hsend. cbn [fst run_result].
  rewrite Hstatus, Hjson. split; reflexivity.
Qed.

Lemma unparsable_success_is_zero_witness :
  requests_send world_html 0
    (humanize_request default_base_url TEXT_SHORT true)
    = Ok {| status_code := 200; json := None |} /\
  fst (benchmark_humanization world_html TEXT_SHORT "short" true
         (init default_base_url)) = Ok (0%float, empty_dict) /\
  fst (benchmark_humanization world_html TEXT_SHORT "short" true
         (init default_base_url))
    = Ok (run_result (time_time world_html 0) (time_time world_html 1)
            (Raise ConnectionError)).
Proof.
  split; [reflexivity |].
  apply (unparsable_success_is_zero world_html TEXT_SHORT "short" true
           (init default_base_url) {| status_code := 200; json := None |});
    reflexivity.
Defined.

(** C10. A 200 response whose parsed body is a JSON object without a
    ["statistics"] key still takes the success path: the call returns the
    measured time with the empty mapping, and does not raise. *)
Theorem missing_statistics_is_empty (W : world) (text text_name : string)
    (enhanced : bool) (s : state) (r : response) (d : gmap string value) :
  requests_send W (length (sent s))
    (humanize_request (base_url s) text enhanced) = Ok r ->
  status_code r = 200%Z ->
  json r = Some (VDict d) ->
  d !! "statistics" = None ->
  fst (benchmark_humanization W text text_name enhanced s)
    = Ok ((time_time W (S (clock_reads s)) - time_time W (clock_reads s))%float,
          VDict ∅).
Proof.
  intros Hsend Hstatus Hjson Hkey.
  pose proof (benchmark_humanization_run W text text_name enhanced s) as Hrun.
  cbn zeta in Hrun. rewrite Hrun, Hsend. cbn [fst run_result].
  rewrite Hstatus, Hjson, Hkey. reflexivity.
Qed.

Lemma missing_statistics_is_empty_witness :
  ({[ "humanized_text" := VStr "Hello." ]} : gmap string value)
    !! "statistics" = None /\
  fst (benchmark_humanization world_no_statistics TEXT_SHORT "short" false
         (init default_base_url))
    = Ok ((time_time world_no_statistics 1
           - time_time world_no_statistics 0)%float, VDict ∅).
Proof.
  split; [reflexivity |].
  apply (missing_statistics_is_empty world_no_statistics TEXT_SHORT "short"
           false (init default_base_url)
           {| status_code := 200;
              json := Some (VDict {[ "humanized_text" := VStr "Hello." ]}) |}
           {[ "humanized_text" := VStr "Hello." ]});
    reflexivity.
Defined.

(** ** Claims about the availability check *)

(** C6, as the code has it.  [check_server] issues one GET to the health path
    with a 5-second timeout.  It returns true exactly when the request yields
    a response with status 200 and false for any other status, for a
    connection failure and for a timeout; an exception of the request that is
    neither a connection failure nor a timeout is not caught and reaches the
    caller. *)
Theorem check_server_outcomes (W : world) (s : state) :
  fst (check_server W s) =
    match requests_send W (length (sent s)) (health_request (base_url s)) with
    | Ok r => Ok (bool_decide (status_code r = 200%Z))
    | Raise e =>
        if is_ConnectionError e || is_Timeout e then Ok false else Raise e
    end /\
  sent (snd (check_server W s)) = sent s ++ [health_request (base_url s)] /\
  health_request (base_url s) =
    {| req_method := GET; req_url := base_url s ++ "/health";
       req_json := None; req_timeout := 5 |}.
Proof.
  rewrite check_server_run. cbn [fst snd advance sent]. unfold availability.
  split; [| split; reflexivity].
  destruct (requests_send W (length (sent s)) (health_request (base_url s)))
    as [r | e]; [| reflexivity].
  f_equal. destruct (Z.eqb_spec (status_code r) 200) as [Heq | Hne].
  - by rewrite bool_decide_eq_true_2.
  - by rewrite bool_decide_eq_false_2.
Qed.

(** C6 as stated fails: with a base URL whose scheme [requests] does not
    know, the GET raises [InvalidSchema], which [check_server] does not
    catch; it raises instead of returning false. *)
Lemma check_server_raises_on_bad_scheme :
  requests_send world_bad_scheme 0 (health_request "localhost:5000")
    = Raise (RequestException "InvalidSchema") /\
  fst (check_server world_bad_scheme (init "localhost:5000"))
    = Raise (RequestException "InvalidSchema") /\
  fst (main world_bad_scheme ["benchmark.py"; "localhost:5000"])
    = Raise (RequestException "InvalidSchema").
Proof. repeat split; vm_compute; reflexivity. Qed.

(** C7. When the availability check returns false, [run_benchmark] returns
    normally after printing that the server is not running; the only request
    it has issued is the health check, [self.results] is unchanged, and no
    line of the summary is printed. *)
Theorem run_benchmark_stops_when_unavailable (W : world)
    (texts : gmap string string) (order : list string) (s : state) :
  fst (check_server W s) = Ok false ->
  fst (run_benchmark_on W texts order s) = Ok tt /\
  results (snd (run_benchmark_on W texts order s)) = results s /\
  sent (snd (run_benchmark_on W texts order s))
    = sent s ++ [health_request (base_url s)] /\
  stdout (snd (run_benchmark_on W texts order s))
    = stdout s ++ [MsgRule; MsgBanner; MsgRule; MsgChecking;
                   MsgServerDown; MsgStartHint].
Proof.
  rewrite check_server_run. cbn [fst]. intros Hdown.
  unfold run_benchmark_on.
  do 4 rewrite bind_run, print_advance. rewrite !advance_advance.
  rewrite bind_run, check_server_run. cbn [base_url sent advance].
  rewrite app_nil_r, Hdown. cbn [negb].
  rewrite bind_run, !print_advance, !advance_advance.
  cbn. rewrite ?app_nil_r. repeat split; reflexivity.
Qed.

Lemma run_benchmark_stops_when_unavailable_witness :
  fst (check_server world_down (init default_base_url)) = Ok false /\
  fst (run_benchmark world_down (init default_base_url)) = Ok tt /\
  results (snd (run_benchmark world_down (init default_base_url))) = [] /\
  sent (snd (run_benchmark world_down (init default_base_url)))
    = [health_request default_base_url] /\
  stdout (snd (run_benchmark world_down (init default_base_url)))
    = [MsgRule; MsgBanner; MsgRule; MsgChecking; MsgServerDown; MsgStartHint].
Proof.
  split; [reflexivity |].
  apply (run_benchmark_stops_when_unavailable world_down TEST_TEXTS
           ["short"; "medium"; "long"] (init default_base_url)).
  reflexivity.
Defined.

(** ** Properties of the loop *)

Lemma run_result_statistics (start_time end_time : float)
    (outcome : result response) :
  snd (run_result start_time end_time outcome) = reported_statistics outcome.
Proof.
  unfold reported_statistics, run_result. destruct outcome as [r | e].
  - destruct (status_code r =? 200)%Z; [| reflexivity].
    by destruct (json r) as [[] |].
  - by destruct (is_Timeout e).
Qed.

Lemma run_result_call_time (W : world) (k n : nat) (q : request) :
  fst (run_result (time_time W k) (time_time W (S k)) (requests_send W n q))
  = call_time W {| c_start := k; c_index := n; c_request := q |}.
Proof.
  unfold call_time, call_outcome, run_result, keeps_time, measured.
  cbn [c_start c_index c_request].
  destruct (requests_send W n q) as [r | e]; [| by destruct (is_Timeout e)].
  destruct (status_code r =? 200)%Z; [| reflexivity].
  by destruct (json r) as [[] |].
Qed.

Lemma call_time_within_ceiling (W : world) (c : call) :
  (keeps_time (call_outcome W c) = true ->
   within_ceiling (measured W (c_start c)) = true) ->
  within_ceiling (call_time W c) = true.
Proof.
  unfold call_time. intros Hmeasured.
  destruct (call_outcome W c) as [r | e].
  - destruct (keeps_time (Ok r)); [by apply Hmeasured | reflexivity].
  - by destruct (is_Timeout e).
Qed.

Lemma stats_result_raises (stats : value) (x : exn) :
  stats_result stats = Raise x -> x = AttributeError \/ x = UnicodeEncodeError.
Proof.
  unfold stats_result. destruct (truthy stats); [| discriminate].
  destruct stats; try (intros H; inversion H; by left).
  destruct (_ && _); [discriminate |]. intros H; inversion H; by right.
Qed.

Lemma reads_of_bound (outcome : result response) : reads_of outcome <= 2.
Proof. destruct outcome; cbn; lia. Qed.

Lemma text_outcome_cases (W : world) (url : string) (k n : nat)
    (text_size text : string) :
  let fast_request := humanize_request url text false in
  let enhanced_request := humanize_request url text true in
  let o1 := requests_send W n fast_request in
  let o2 := requests_send W (S n) enhanced_request in
  match text_outcome W url k n text_size text with
  | (Ok e, reads, reqs) =>
      e_size e = text_size /\ e_length e = String.length text /\
      reqs = [fast_request; enhanced_request] /\
      reads = reads_of o2 + reads_of o1 /\
      entry_times e = map (call_time W) (calls_from W k n reqs) /\
      stats_result (reported_statistics o1) = Ok tt /\
      stats_result (reported_statistics o2) = Ok tt
  | (Raise x, reads, reqs) =>
      reads <= 4 /\
      ((reqs = [fast_request] /\
        stats_result (reported_statistics o1) = Raise x) \/
       (reqs = [fast_request; enhanced_request] /\
        stats_result (reported_statistics o2) = Raise x))
  end.
Proof.
  cbn zeta. unfold text_outcome. rewrite !run_result_statistics.
  pose proof (reads_of_bound
                (requests_send W n (humanize_request url text false))).
  pose proof (reads_of_bound
                (requests_send W (S n) (humanize_request url text true))).
  destruct (stats_result (reported_statistics (requests_send W n _)))
    as [[] | x1]; [| split; [lia | by left]].
  destruct (stats_result (reported_statistics (requests_send W (S n) _)))
    as [[] | x2]; [| split; [lia | by right]].
  unfold entry_times. cbn [e_size e_length e_fast_mode e_enhanced_mode
    calls_from map].
  rewrite !run_result_call_time. repeat split; reflexivity.
Qed.

Lemma entry_times_Forall (P : float -> Prop) (es : list entry) :
  Forall P (flat_map entry_times es) ->
  Forall (fun e => P (e_fast_mode e) /\ P (e_enhanced_mode e)) es.
Proof.
  induction es as [| e es IH]; cbn [flat_map entry_times app]; intros H;
    [constructor |].
  inversion H as [| ? ? Hfast H']; subst.
  inversion H' as [| ? ? Henhanced H'']; subst.
  constructor; [split; assumption | by apply IH].
Qed.

(** The records of a loop hold the times of its timed calls, two by two;
    a loop that ends normally has no further call. *)
Lemma sweep_calls (W : world) (url : string) (texts : gmap string string)
    (order : list string) (k n : nat) :
  match sweep W url texts order k n with
  | (r, es, reads, reqs) =>
      flat_map entry_times es
        `prefix_of` map (call_time W) (calls_from W k n reqs) /\
      (r = Ok tt ->
       flat_map entry_times es = map (call_time W) (calls_from W k n reqs))
  end.
Proof.
  revert k n. induction order as [| text_size rest IH]; intros k n;
    cbn [sweep].
  - split; reflexivity.
  - destruct (texts !! text_size) as [text |];
      [| split; [apply prefix_nil | discriminate]].
    pose proof (text_outcome_cases W url k n text_size text) as Hpass.
    cbn zeta in Hpass.
    destruct (text_outcome W url k n text_size text)
      as [[[e | x] reads] reqs]; [| split; [apply prefix_nil | discriminate]].
    destruct Hpass as (_ & _ & -> & -> & Htimes & _).
    specialize (IH (reads_of (requests_send W (S n)
                                (humanize_request url text true))
                    + reads_of (requests_send W n
                                  (humanize_request url text false)) + k)
                  (S (S n))).
    destruct (sweep W url texts rest _ (S (S n))) as [[[r es] reads'] reqs'].
    destruct IH as [IHprefix IHall].
    cbn [flat_map]. rewrite Htimes. cbn [calls_from map app].
    rewrite <- Nat.add_assoc in IHprefix, IHall. split.
    + by do 2 apply prefix_cons.
    + intros Hok. by rewrite (IHall Hok).
Qed.

Lemma sweep_requests_prefix (W : world) (url : string)
    (texts : gmap string string) (order : list string) (k n : nat) :
  snd (sweep W url texts order k n) `prefix_of`
    planned_requests url texts order.
Proof.
  revert k n. induction order as [| text_size rest IH]; intros k n;
    cbn [sweep planned_requests flat_map].
  - reflexivity.
  - destruct (texts !! text_size) as [text |]; [| apply prefix_nil].
    pose proof (text_outcome_cases W url k n text_size text) as Hpass.
    cbn zeta in Hpass.
    destruct (text_outcome W url k n text_size text)
      as [[[e | x] reads] reqs].
    + destruct Hpass as (_ & _ & -> & _).
      specialize (IH (reads + k) (S (S n))).
      destruct (sweep W url texts rest (reads + k) (S (S n)))
        as [[[r es] reads'] reqs'].
      cbn [snd] in *. by apply prefix_app.
    + cbn [snd]. destruct Hpass as (_ & [[-> _] | [-> _]]).
      * exists (humanize_request url text true
                :: planned_requests url texts rest). reflexivity.
      * exists (planned_requests url texts rest). reflexivity.
Qed.

(** A loop that ends normally has issued every planned request. *)
Lemma sweep_ok_requests (W : world) (url : string)
    (texts : gmap string string) (order : list string) (k n : nat) :
  fst (fst (fst (sweep W url texts order k n))) = Ok tt ->
  snd (sweep W url texts order k n) = planned_requests url texts order.
Proof.
  revert k n. induction order as [| text_size rest IH]; intros k n;
    cbn [sweep planned_requests flat_map].
  - reflexivity.
  - destruct (texts !! text_size) as [text |]; [| discriminate].
    pose proof (text_outcome_cases W url k n text_size text) as Hpass.
    cbn zeta in Hpass.
    destruct (text_outcome W url k n text_size text)
      as [[[e | x] reads] reqs]; [| discriminate].
    destruct Hpass as (_ & _ & -> & _).
    specialize (IH (reads + k) (S (S n))).
    destruct (sweep W url texts rest (reads + k) (S (S n)))
      as [[[r es] reads'] reqs'].
    cbn [fst snd] in *. intros Hok. by rewrite (IH Hok).
Qed.

Lemma sweep_expected (W : world) (url : string)
    (texts : gmap string string) (order : list string) (k n : nat) :
  Forall (fun text_size => is_Some (texts !! text_size)) order ->
  Forall (fun c => stats_result (reported_statistics (call_outcome W c))
                   = Ok tt)
    (calls_from W k n (planned_requests url texts order)) ->
  fst (fst (sweep W url texts order k n))
  = (Ok tt, expected_records W url texts order k n) /\
  snd (sweep W url texts order k n) = planned_requests url texts order.
Proof.
  intros Hkeys. revert k n.
  induction Hkeys as [| text_size rest [text Htext] _ IH]; intros k n;
    cbn [sweep expected_records planned_requests flat_map].
  - split; reflexivity.
  - rewrite Htext. cbn [default app calls_from]. unfold id.
    intros Hstats.
    inversion Hstats as [| ? ? Hfast Hstats']; subst.
    inversion Hstats' as [| ? ? Henhanced Hrest]; subst.
    unfold call_outcome in Hfast, Henhanced.
    cbn [c_index c_request] in Hfast, Henhanced.
    unfold text_outcome. rewrite !run_result_statistics, Hfast, Henhanced.
    rewrite Nat.add_assoc in Hrest. specialize (IH _ _ Hrest).
    destruct (sweep W url texts rest _ (S (S n))) as [[[r es] reads'] reqs'].
    cbn [fst snd] in *. destruct IH as [IH1 IH2]. inversion IH1; subst.
    split; [| reflexivity]. by rewrite Nat.add_assoc.
Qed.

(** A loop that ends normally has found every name in the dict. *)
Lemma sweep_ok_keys (W : world) (url : string)
    (texts : gmap string string) (order : list string) (k n : nat) :
  fst (fst (fst (sweep W url texts order k n))) = Ok tt ->
  Forall (fun text_size => is_Some (texts !! text_size)) order.
Proof.
  revert k n. induction order as [| text_size rest IH]; intros k n;
    cbn [sweep]; [constructor |].
  destruct (texts !! text_size) as [text |] eqn:Htext; [| discriminate].
  destruct (text_outcome W url k n text_size text)
    as [[[e | x] reads] reqs]; [| discriminate].
  specialize (IH (reads + k) (S (S n))).
  destruct (sweep W url texts rest (reads + k) (S (S n)))
    as [[[r es] reads'] reqs'].
  cbn [fst] in *. intros Hok. constructor; [by eexists | by apply IH].
Qed.

(** ** Claims about the whole run *)

(** C4, as the code has it.  The elapsed times of the records of a run are
    those of its timed calls, two by two in call order (see [call_time]):
    60.0 after a timeout, 0.0 after any other exception and after a 200
    response whose body is not a JSON object, and otherwise the difference of
    the two clock readings taken around the request, which the code does not
    clamp.  So both elapsed times of every record lie between 0 and the
    60-second ceiling provided that difference does for each timed call that
    returns its measured time. *)
Theorem run_benchmark_recorded_times (W : world)
    (texts : gmap string string) (order : list string) (s : state) :
  exists (new : list entry) (posts : list request),
    results (snd (run_benchmark_on W texts order s)) = results s ++ new /\
    sent (snd (run_benchmark_on W texts order s))
      = sent s ++ health_request (base_url s) :: posts /\
    flat_map entry_times new
      `prefix_of`
      map (call_time W)
        (calls_from W (clock_reads s) (S (length (sent s))) posts) /\
    (Forall (fun c => keeps_time (call_outcome W c) = true ->
                      within_ceiling (measured W (c_start c)) = true)
       (calls_from W (clock_reads s) (S (length (sent s))) posts) ->
     Forall (fun e => within_ceiling (e_fast_mode e) = true /\
                      within_ceiling (e_enhanced_mode e) = true) new).
Proof.
  pose proof (run_benchmark_on_lines W texts order s) as Hrun.
  cbn zeta in Hrun. rewrite Hrun. clear Hrun.
  destruct (availability _) as [[|] | e].
  - pose proof (sweep_calls W (base_url s) texts order (clock_reads s)
                  (S (length (sent s)))) as Hcalls.
    destruct (sweep W (base_url s) texts order (clock_reads s)
                (S (length (sent s)))) as [[[r es] reads] reqs].
    destruct Hcalls as [[rest Hprefix] _].
    exists es, reqs. split; [reflexivity |]. split; [reflexivity |].
    split; [by exists rest |].
    intros Hmeasured.
    apply (entry_times_Forall (fun t => within_ceiling t = true)).
    assert (Hall : Forall (fun t => within_ceiling t = true)
                     (map (call_time W)
                        (calls_from W (clock_reads s) (S (length (sent s)))
                           reqs))).
    { apply Forall_map. eapply Forall_impl; [exact Hmeasured |].
      intros c Hc. by apply call_time_within_ceiling. }
    rewrite Hprefix in Hall. by apply Forall_app in Hall as [Hall _].
  - exists [], []. cbn. repeat split; auto using prefix_nil.
  - exists [], []. cbn. repeat split; auto using prefix_nil.
Qed.

Lemma run_benchmark_recorded_times_witness :
  map (fun e => (e_fast_mode e, e_enhanced_mode e))
    (results (snd (run_benchmark world_flaky (init default_base_url))))
    = [(1%float, 2%float); (60%float, 0%float); (0.5%float, 0%float)] /\
  Forall (fun e => within_ceiling (e_fast_mode e) = true /\
                   within_ceiling (e_enhanced_mode e) = true)
    (results (snd (run_benchmark world_flaky (init default_base_url)))).
Proof.
  split; [vm_compute; reflexivity |].
  destruct (run_benchmark_recorded_times world_flaky TEST_TEXTS
              ["short"; "medium"; "long"] (init default_base_url))
    as (new & posts & Hresults & Hsent & _ & Hbound).
  unfold run_benchmark. rewrite Hresults. cbn [init results app].
  apply Hbound.
  assert (Hposts : posts
            = drop 1 (sent (snd (run_benchmark world_flaky
                                   (init default_base_url))))).
  { unfold run_benchmark. rewrite Hsent. reflexivity. }
  rewrite Hposts. vm_compute.
  repeat constructor; intros; reflexivity || discriminate.
Defined.

(** C4 as stated fails: the service answers the first timed call 61 seconds
    after the request; the record of the first text carries 61 seconds, above
    the ceiling. *)
Lemma slow_response_exceeds_ceiling :
  map e_fast_mode
    (results (snd (run_benchmark world_slow (init default_base_url))))
    = [61%float; 0%float; 0%float] /\
  within_ceiling 61 = false.
Proof. split; vm_compute; reflexivity. Qed.

(** C5, as the code has it.  When the availability check passes, every
    name of the loop is a key of the dict of texts, and the statistics the
    service reports to each timed call of the run can be printed (they are a
    value Python treats as false, or a dict whose ["original_length"] and
    ["final_length"] values the console can encode), the run ends normally
    and appends exactly the expected records: one per text, in loop order,
    each with the text's name, its length in characters, and the elapsed
    times of its fast call and of its enhanced call. *)
Theorem run_benchmark_on_records (W : world) (texts : gmap string string)
    (order : list string) (s : state) :
  fst (check_server W s) = Ok true ->
  Forall (fun text_size => is_Some (texts !! text_size)) order ->
  Forall (fun c => stats_result (reported_statistics (call_outcome W c))
                   = Ok tt)
    (calls_from W (clock_reads s) (S (length (sent s)))
       (planned_requests (base_url s) texts order)) ->
  let new :=
    expected_records W (base_url s) texts order (clock_reads s)
      (S (length (sent s))) in
  fst (run_benchmark_on W texts order s) = Ok tt /\
  results (snd (run_benchmark_on W texts order s)) = results s ++ new /\
  map e_size new = order /\
  map e_length new
    = map (fun text_size => String.length (default "" (texts !! text_size)))
        order /\
  sent (snd (run_benchmark_on W texts order s))
    = sent s ++ health_request (base_url s)
             :: planned_requests (base_url s) texts order.
Proof.
  intros Hup Hkeys Hstats new.
  rewrite check_server_run in Hup. cbn [fst] in Hup.
  pose proof (run_benchmark_on_lines W texts order s) as Hrun.
  cbn zeta in Hrun. rewrite Hrun, Hup. clear Hrun.
  destruct (sweep_expected W (base_url s) texts order (clock_reads s)
              (S (length (sent s))) Hkeys Hstats) as [Hrecords Hrequests].
  fold new in Hrecords.
  destruct (sweep W (base_url s) texts order (clock_reads s)
              (S (length (sent s)))) as [[[r es] reads] reqs].
  cbn [fst snd] in *. inversion Hrecords; subst r es reqs.
  split; [reflexivity |]. split; [reflexivity |].
  split; [| split; [| reflexivity]]; subst new;
    generalize (clock_reads s), (S (length (sent s)));
    clear; induction order as [| text_size rest IH]; intros k n;
    cbn [expected_records map e_size e_length];
    [reflexivity | by rewrite IH | reflexivity | by rewrite IH].
Qed.

Lemma run_benchmark_on_records_witness :
  fst (check_server world_steady (init default_base_url)) = Ok true /\
  fst (run_benchmark world_steady (init default_base_url)) = Ok tt /\
  results (snd (run_benchmark world_steady (init default_base_url)))
    = [] ++ expected_records world_steady default_base_url TEST_TEXTS
              ["short"; "medium"; "long"] 0 1.
Proof.
  split; [reflexivity |].
  pose proof (run_benchmark_on_records world_steady TEST_TEXTS
                ["short"; "medium"; "long"] (init default_base_url)) as Hrun.
  cbn zeta in Hrun. destruct Hrun as (Hok & Hrecords & _).
  - reflexivity.
  - repeat constructor; by eexists.
  - vm_compute. repeat constructor.
  - split; [exact Hok | exact Hrecords].
Defined.

(** C5 as stated fails.  The service passes the health check and answers the
    first timed call with status 200 and the JSON body
    [{"statistics": "n/a"}].  The string is truthy, so [run_benchmark] calls
    [.get] on it: [AttributeError] leaves [run_benchmark] after the health
    check and one POST, no record is appended and no summary is printed. *)
Lemma run_benchmark_aborts_on_text_statistics :
  fst (check_server world_text_statistics (init default_base_url)) = Ok true /\
  fst (benchmark_humanization world_text_statistics TEXT_SHORT "short" false
         (init default_base_url)) = Ok (2%float, VStr "n/a") /\
  fst (run_benchmark world_text_statistics (init default_base_url))
    = Raise AttributeError /\
  results (snd (run_benchmark world_text_statistics (init default_base_url)))
    = [] /\
  map req_method
    (sent (snd (run_benchmark world_text_statistics (init default_base_url))))
    = [GET; POST] /\
  omap totals_of
    (stdout (snd (run_benchmark world_text_statistics
                    (init default_base_url)))) = [].
Proof. repeat split; vm_compute; reflexivity. Qed.

(** C8. A timed call issues exactly one request: a POST to the base URL
    followed by [/humanize], with a 60-second timeout and a JSON body whose
    keys are exactly ["text"], ["paraphrasing"] and ["enhanced"], holding the
    text, true and the mode flag.  In a run, the requests that follow the
    health check are timed calls in loop order, for each text the fast call
    with the flag false and then the enhanced call with the flag true: they
    form a prefix of [planned_requests], and they are all of it when the
    availability check passes and the run returns normally. *)
Theorem humanize_requests_shape (W : world) (texts : gmap string string)
    (order : list string) (text text_name : string) (enhanced : bool)
    (s : state) :
  sent (snd (benchmark_humanization W text text_name enhanced s))
    = sent s ++ [humanize_request (base_url s) text enhanced] /\
  (exists payload : gmap string value,
     humanize_request (base_url s) text enhanced =
       {| req_method := POST; req_url := base_url s ++ "/humanize";
          req_json := Some payload; req_timeout := 60 |} /\
     dom payload = ({[ "text"; "paraphrasing"; "enhanced" ]} : gset string) /\
     payload !! "text" = Some (VStr text) /\
     payload !! "paraphrasing" = Some (VBool true) /\
     payload !! "enhanced" = Some (VBool enhanced)) /\
  (exists posts : list request,
     sent (snd (run_benchmark_on W texts order s))
       = sent s ++ health_request (base_url s) :: posts /\
     posts `prefix_of` planned_requests (base_url s) texts order /\
     match fst (check_server W s), fst (run_benchmark_on W texts order s) with
     | Ok true, Ok _ =>
         posts
         = flat_map
             (fun text_size =>
                match texts !! text_size with
                | Some text =>
                    [humanize_request (base_url s) text false;
                     humanize_request (base_url s) text true]
                | None => []
                end)
             order /\
         Forall (fun text_size => is_Some (texts !! text_size)) order
     | _, _ => True
     end).
Proof.
  split; [| split].
  - pose proof (benchmark_humanization_run W text text_name enhanced s) as Hrun.
    cbn zeta in Hrun. by rewrite Hrun.
  - exists (humanize_payload text enhanced). split; [reflexivity |].
    unfold humanize_payload. split.
    + rewrite !dom_insert_L, dom_singleton_L. set_solver.
    + repeat split; by simplify_map_eq.
  - pose proof (run_benchmark_on_lines W texts order s) as Hrun.
    cbn zeta in Hrun. rewrite Hrun, check_server_run. clear Hrun. cbn [fst].
    destruct (availability _) as [[|] | e].
    + pose proof (sweep_requests_prefix W (base_url s) texts order
                    (clock_reads s) (S (length (sent s)))) as Hprefix.
      pose proof (sweep_ok_requests W (base_url s) texts order
                    (clock_reads s) (S (length (sent s)))) as Hall.
      pose proof (sweep_ok_keys W (base_url s) texts order
                    (clock_reads s) (S (length (sent s)))) as Hkeys.
      destruct (sweep W (base_url s) texts order (clock_reads s)
                  (S (length (sent s)))) as [[[r es] reads] reqs].
      exists reqs. split; [reflexivity |]. split; [exact Hprefix |].
      cbn [fst snd] in *. destruct r as [[] | x]; [| exact I].
      split; [by apply Hall | by apply Hkeys].
    + exists []. split; [reflexivity |]. split; [apply prefix_nil | exact I].
    + exists []. split; [reflexivity |]. split; [apply prefix_nil | exact I].
Qed.

(** ** Scenarios *)

Example sample_text_lengths :
  (String.length TEXT_SHORT, String.length TEXT_MEDIUM,
   String.length TEXT_LONG) = (125, 457, 1299).
Proof. reflexivity. Qed.

(** One record with a fast time of one second and an enhanced time of two:
    the row speedup is 2, the totals are 1 and 2, the overall speedup is 2. *)
Example summary_of_one_record :
  let s := {| base_url := default_base_url;
              results := [ {| e_size := "short"; e_length := 125;
                              e_fast_mode := 1; e_enhanced_mode := 2 |} ];
              clock_reads := 0; sent := []; stdout := [] |} in
  fst (print_summary s) = Ok tt /\
  omap row_of (stdout (snd (print_summary s)))
    = [("short", 125, 1%float, 2%float, 2%float)] /\
  omap totals_of (stdout (snd (print_summary s)))
    = [(1%float, 2%float, 2%float)].
Proof. repeat split; vm_compute; reflexivity. Qed.

(** Records whose times are all zero: every speedup is 1 and nothing is
    raised. *)
Example summary_of_zero_times :
  let s := {| base_url := default_base_url;
              results := [ {| e_size := "short"; e_length := 125;
                              e_fast_mode := 0; e_enhanced_mode := 0 |};
                           {| e_size := "long"; e_length := 1299;
                              e_fast_mode := 0; e_enhanced_mode := 0 |} ];
              clock_reads := 0; sent := []; stdout := [] |} in
  fst (print_summary s) = Ok tt /\
  omap row_of (stdout (snd (print_summary s)))
    = [("short", 125, 0%float, 0%float, 1%float);
       ("long", 1299, 0%float, 0%float, 1%float)] /\
  omap totals_of (stdout (snd (print_summary s)))
    = [(0%float, 0%float, 1%float)].
Proof. repeat split; vm_compute; reflexivity. Qed.

(** A run against the steady service: three records, in loop order. *)
Example steady_run_records :
  results (snd (run_benchmark world_steady (init default_base_url)))
  = [ {| e_size := "short"; e_length := 125;
         e_fast_mode := 1.5; e_enhanced_mode := 2 |};
      {| e_size := "medium"; e_length := 457;
         e_fast_mode := 3; e_enhanced_mode := 0 |};
      {| e_size := "long"; e_length := 1299;
         e_fast_mode := 0; e_enhanced_mode := 0 |} ].
Proof. vm_compute. reflexivity. Qed.

(** A run against a service that is down part of the time: a timeout is
    recorded as 60 seconds, a refused connection as zero, and the loop goes
    on to the next text. *)
Example failures_do_not_stop_the_loop :
  let W := {| time_time := fun k =>
                match k with 0 => 10 | 1 => 11 | 2 => 20 | 3 => 22 | _ => 30
                end%float;
              requests_send := fun n r =>
                match n with
                | 3 => Raise ReadTimeout
                | 4 => Raise ConnectionError
                | 5 => Ok {| status_code := 500; json := None |}
                | _ => Ok {| status_code := 200;
                             json := Some statistics_body |}
                end |} in
  fst (run_benchmark W (init default_base_url)) = Ok tt /\
  map (fun e => (e_size e, e_fast_mode e, e_enhanced_mode e))
    (results (snd (run_benchmark W (init default_base_url))))
  = [("short", 1%float, 2%float); ("medium", 60%float, 0%float);
     ("long", 0%float, 0%float)].
Proof. split; vm_compute; reflexivity. Qed.

(** A run against a service whose statistics hold a lone surrogate: the
    fast time of the first text is printed, then printing the statistics
    raises, and no record is appended. *)
Example unprintable_statistics_end_the_run :
  fst (benchmark_humanization world_surrogate TEXT_SHORT "short" false
         (init default_base_url))
    = Ok (2%float, VDict {[ "original_length" := VStr lone_surrogate ]}) /\
  fst (run_benchmark world_surrogate (init default_base_url))
    = Raise UnicodeEncodeError /\
  results (snd (run_benchmark world_surrogate (init default_base_url))) = [] /\
  omap time_of
    (stdout (snd (run_benchmark world_surrogate (init default_base_url))))
    = [2%float].
Proof. repeat split; vm_compute; reflexivity. Qed.

(** ** Shape of a loop *)

Lemma sweep_names_prefix (W : world) (url : string)
    (texts : gmap string string) (order : list string) (k n : nat) :
  match sweep W url texts order k n with
  | (r, es, reads, reqs) =>
      map e_size es `prefix_of` order /\
      map e_length es
        = map (fun text_size =>
                 String.length (default "" (texts !! text_size)))
            (map e_size es) /\
      (r = Ok tt -> map e_size es = order) /\
      2 * length es <= length reqs <= 2 * length es + 2 /\
      (r = Ok tt -> length reqs = 2 * length es) /\
      length reqs <= 2 * length order /\
      reads <= 4 * length order
  end.
Proof.
  revert k n. induction order as [| text_size rest IH]; intros k n;
    cbn [sweep].
  - cbn. repeat split; auto; lia.
  - destruct (texts !! text_size) as [text |] eqn:Htext.
    + pose proof (text_outcome_cases W url k n text_size text) as Hpass.
      cbn zeta in Hpass.
      destruct (text_outcome W url k n text_size text)
        as [[[e | x] reads] reqs].
      * destruct Hpass as (Hsize & Hlen & -> & Hreads & _).
        pose proof (reads_of_bound
                      (requests_send W n (humanize_request url text false))).
        pose proof (reads_of_bound
                      (requests_send W (S n)
                         (humanize_request url text true))).
        specialize (IH (reads + k) (S (S n))).
        destruct (sweep W url texts rest (reads + k) (S (S n)))
          as [[[r es] reads'] reqs'].
        destruct IH as (Hnames & Hlens & Hall & Hreqs & Hexact & Hbound & Hr).
        cbn [map length app]. rewrite Hsize, Hlen, Htext. cbn [default].
        repeat split.
        -- by apply prefix_cons.
        -- unfold id. by rewrite Hlens.
        -- intros Hok. by rewrite (Hall Hok).
        -- lia.
        -- lia.
        -- intros Hok. specialize (Hexact Hok). lia.
        -- lia.
        -- lia.
      * destruct Hpass as (Hreads & [[-> _] | [-> _]]); cbn;
          repeat split; try apply prefix_nil; try discriminate; lia.
    + cbn. repeat split; try apply prefix_nil; try discriminate; lia.
Qed.

(** A loop over names that are all in the dict ends normally, or with the
    exception that printing the statistics of its last request raised. *)
Lemma sweep_raise (W : world) (url : string)
    (texts : gmap string string) (order : list string) (k n : nat) :
  Forall (fun text_size => is_Some (texts !! text_size)) order ->
  match sweep W url texts order k n with
  | (Ok _, _, _, _) => True
  | (Raise x, _, _, reqs) =>
      exists (pre : list request) (q : request),
        reqs = pre ++ [q] /\
        stats_result
          (reported_statistics (requests_send W (length pre + n) q))
        = Raise x
  end.
Proof.
  intros Hkeys. revert k n.
  induction Hkeys as [| text_size rest [text Htext] _ IH]; intros k n;
    cbn [sweep]; [exact I |].
  rewrite Htext.
  pose proof (text_outcome_cases W url k n text_size text) as Hpass.
  cbn zeta in Hpass.
  destruct (text_outcome W url k n text_size text) as [[[e | x] reads] reqs].
  - destruct Hpass as (_ & _ & -> & _).
    specialize (IH (reads + k) (S (S n))).
    destruct (sweep W url texts rest (reads + k) (S (S n)))
      as [[[[[] | x] es] reads'] reqs']; [exact I |].
    destruct IH as (pre & q & -> & Hq).
    exists (humanize_request url text false
            :: humanize_request url text true :: pre), q.
    split; [reflexivity |]. cbn [length].
    by replace (S (S (length pre)) + n) with (length pre + S (S n)) by lia.
  - destruct Hpass as (_ & [[-> Hq] | [-> Hq]]).
    + by exists [], (humanize_request url text false).
    + by exists [humanize_request url text false],
                (humanize_request url text true).
Qed.

Lemma planned_requests_posts (url : string) (texts : gmap string string)
    (order : list string) :
  Forall (fun q => req_method q = POST /\
                   req_url q = (url ++ "/humanize")%string /\
                   req_timeout q = 60%Z)
    (planned_requests url texts order).
Proof.
  unfold planned_requests. induction order as [| text_size rest IH];
    cbn [flat_map]; [constructor |].
  destruct (texts !! text_size) as [text |]; [| exact IH].
  cbn [app]. repeat constructor. exact IH.
Qed.

Lemma TEST_TEXTS_keys :
  Forall (fun text_size => is_Some (TEST_TEXTS !! text_size))
    ["short"; "medium"; "long"].
Proof. repeat constructor; by eexists. Qed.

(** A loop ended by anything but a failed print of statistics has no call
    without a record. *)
Lemma sweep_key_error (W : world) (url : string)
    (texts : gmap string string) (order : list string) (k n : nat) :
  match sweep W url texts order k n with
  | (r, es, _, reqs) =>
      r <> Raise AttributeError -> r <> Raise UnicodeEncodeError ->
      flat_map entry_times es = map (call_time W) (calls_from W k n reqs)
  end.
Proof.
  revert k n. induction order as [| text_size rest IH]; intros k n;
    cbn [sweep]; [reflexivity |].
  destruct (texts !! text_size) as [text |]; [| reflexivity].
  pose proof (text_outcome_cases W url k n text_size text) as Hpass.
  cbn zeta in Hpass.
  destruct (text_outcome W url k n text_size text) as [[[e | x] reads] reqs].
  - destruct Hpass as (_ & _ & -> & -> & Htimes & _).
    specialize (IH (reads_of (requests_send W (S n)
                                (humanize_request url text true))
                    + reads_of (requests_send W n
                                  (humanize_request url text false)) + k)
                  (S (S n))).
    destruct (sweep W url texts rest _ (S (S n))) as [[[r es] reads'] reqs'].
    intros Hattr Huni. cbn [flat_map]. rewrite Htimes, (IH Hattr Huni).
    cbn [calls_from map app]. by rewrite <- Nat.add_assoc.
  - destruct Hpass as (_ & [[_ Hx] | [_ Hx]]);
      apply stats_result_raises in Hx as [-> | ->]; congruence.
Qed.

(** ** What the lines of a run show *)

Lemma call_output_shows_nothing (outcome : result response) :
  omap row_of (call_output outcome) = [] /\
  omap totals_of (call_output outcome) = [] /\
  omap time_of (call_output outcome) = [] /\
  omap speed_of (call_output outcome) = [].
Proof.
  unfold call_output. destruct outcome as [r | e].
  - destruct (status_code r =? 200)%Z; [| by cbn].
    by destruct (json r) as [[] |].
  - by destruct (is_Timeout e).
Qed.

Lemma stats_lines_show_nothing (stats : value) :
  omap row_of (stats_lines stats) = [] /\
  omap totals_of (stats_lines stats) = [] /\
  omap time_of (stats_lines stats) = [] /\
  omap speed_of (stats_lines stats) = [].
Proof.
  unfold stats_lines. destruct stats; try by cbn.
  cbn zeta. destruct (truthy _); [| by cbn].
  destruct (printable _); [| by cbn]. by destruct (printable _).
Qed.

Lemma speed_lines_show (time_fast time_enhanced : float) :
  omap row_of (speed_lines time_fast time_enhanced) = [] /\
  omap totals_of (speed_lines time_fast time_enhanced) = [] /\
  omap time_of (speed_lines time_fast time_enhanced) = [] /\
  omap speed_of (speed_lines time_fast time_enhanced)
    = (if (0 <? time_enhanced)%float
       then [speedup time_enhanced time_fast] else []).
Proof. unfold speed_lines. by destruct (0 <? time_enhanced)%float. Qed.

Lemma text_lines_show (W : world) (url : string) (k n : nat)
    (text_size text : string) :
  let lines := text_lines W url k n text_size text in
  omap row_of lines = [] /\
  omap totals_of lines = [] /\
  match text_outcome W url k n text_size text with
  | (r, _, reqs) =>
      omap time_of lines = map (call_time W) (calls_from W k n reqs) /\
      omap speed_of lines
        = match r with Ok e => entry_speed e | Raise _ => [] end
  end.
Proof.
  cbn zeta. unfold text_lines, text_outcome, entry_speed.
  set (q1 := humanize_request url text false).
  set (q2 := humanize_request url text true).
  pose proof (run_result_call_time W k n q1) as Htime1.
  pose proof (run_result_call_time W
                (reads_of (requests_send W n q1) + k) (S n) q2) as Htime2.
  set (o1 := requests_send W n q1) in *.
  set (r1 := run_result _ _ o1) in *.
  set (o2 := requests_send W (S n) q2) in *.
  set (r2 := run_result _ _ o2) in *.
  destruct (call_output_shows_nothing o1) as (Hc1 & Hc2 & Hc3 & Hc4).
  destruct (call_output_shows_nothing o2) as (Hd1 & Hd2 & Hd3 & Hd4).
  destruct (stats_lines_show_nothing (snd r1)) as (Hs1 & Hs2 & Hs3 & Hs4).
  destruct (stats_lines_show_nothing (snd r2)) as (Ht1 & Ht2 & Ht3 & Ht4).
  destruct (speed_lines_show (fst r1) (fst r2)) as (Hv1 & Hv2 & Hv3 & Hv4).
  destruct (stats_result (snd r1)) as [[] | x1];
    [destruct (stats_result (snd r2)) as [[] | x2] |];
    cbn [fst snd e_fast_mode e_enhanced_mode calls_from map];
    fold o1 o2;
    rewrite ?omap_app, ?Hc1, ?Hc2, ?Hc3, ?Hc4, ?Hd1, ?Hd2, ?Hd3, ?Hd4,
      ?Hs1, ?Hs2, ?Hs3, ?Hs4, ?Ht1, ?Ht2, ?Ht3, ?Ht4, ?Hv1, ?Hv2, ?Hv3, ?Hv4;
    cbn [omap list_omap row_of totals_of time_of speed_of app];
    rewrite <- ?Htime1, <- ?Htime2; repeat split; reflexivity.
Qed.

Lemma sweep_lines_show (W : world) (url : string)
    (texts : gmap string string) (order : list string) (k n : nat) :
  let lines := sweep_lines W url texts order k n in
  omap row_of lines = [] /\
  omap totals_of lines = [] /\
  match sweep W url texts order k n with
  | (r, es, _, reqs) =>
      omap speed_of lines = flat_map entry_speed es /\
      omap time_of lines = map (call_time W) (calls_from W k n reqs)
  end.
Proof.
  cbn zeta. revert k n. induction order as [| text_size rest IH]; intros k n;
    cbn [sweep sweep_lines].
  - cbn. repeat split; reflexivity.
  - destruct (texts !! text_size) as [text |].
    + pose proof (text_lines_show W url k n text_size text) as Htext.
      cbn zeta in Htext. destruct Htext as (Hrow & Htot & Hpass).
      pose proof (text_outcome_cases W url k n text_size text) as Hcases.
      cbn zeta in Hcases.
      destruct (text_outcome W url k n text_size text)
        as [[[e | x] reads] reqs].
      * destruct Hpass as (Htimes & Hspeed).
        destruct Hcases as (_ & _ & -> & -> & _).
        specialize (IH (reads_of (requests_send W (S n)
                                    (humanize_request url text true))
                        + reads_of (requests_send W n
                                      (humanize_request url text false)) + k)
                      (S (S n))).
        destruct (sweep W url texts rest _ (S (S n)))
          as [[[r es] reads'] reqs'].
        destruct IH as (IHrow & IHtot & IHspeed & IHtimes).
        rewrite !omap_app, Hrow, Htot, Htimes, Hspeed, IHrow, IHtot, IHspeed,
          IHtimes.
        cbn [flat_map calls_from map app]. rewrite <- Nat.add_assoc.
        repeat split; reflexivity.
      * destruct Hpass as (Htimes & Hspeed).
        rewrite app_nil_r, Hrow, Htot, Hspeed, Htimes.
        repeat split; reflexivity.
    + cbn. repeat split; reflexivity.
Qed.

Lemma summary_rows_show (rs : list entry) :
  omap row_of (map summary_row rs) = map row_values rs /\
  omap totals_of (map summary_row rs) = [] /\
  omap time_of (map summary_row rs) = [] /\
  omap speed_of (map summary_row rs) = [].
Proof.
  induction rs as [| r rs (IH1 & IH2 & IH3 & IH4)]; [by cbn |].
  cbn [map omap list_omap summary_row row_of totals_of time_of speed_of].
  rewrite IH1. auto.
Qed.

Lemma summary_lines_show (rs : list entry) :
  omap row_of (summary_lines rs) = map row_values rs /\
  omap totals_of (summary_lines rs) = [totals_values rs] /\
  omap time_of (summary_lines rs) = [] /\
  omap speed_of (summary_lines rs) = [].
Proof.
  destruct (summary_rows_show rs) as (H1 & H2 & H3 & H4).
  unfold summary_lines. cbn zeta. rewrite !omap_app, H1, H2, H3, H4.
  cbn. by rewrite app_nil_r.
Qed.

(** * Further properties of the program *)

Lemma run_benchmark_on_posts (W : world) (texts : gmap string string)
    (order : list string) (s : state) :
  exists posts : list request,
    sent (snd (run_benchmark_on W texts order s))
      = sent s ++ health_request (base_url s) :: posts /\
    stdout (snd (run_benchmark_on W texts order s))
      = stdout s ++ run_lines W texts order s /\
    Forall (fun q => req_method q = POST /\
                     req_url q = (base_url s ++ "/humanize")%string /\
                     req_timeout q = 60%Z) posts.
Proof.
  pose proof (run_benchmark_on_lines W texts order s) as Hrun.
  cbn zeta in Hrun. rewrite Hrun. clear Hrun.
  destruct (availability _) as [[|] | e].
  - pose proof (sweep_requests_prefix W (base_url s) texts order
                  (clock_reads s) (S (length (sent s)))) as [rest Hrest].
    pose proof (planned_requests_posts (base_url s) texts order) as Hposts.
    destruct (sweep W (base_url s) texts order (clock_reads s)
                (S (length (sent s)))) as [[[r es] reads] reqs].
    cbn [snd] in Hrest. rewrite Hrest in Hposts.
    apply Forall_app in Hposts as [Hposts _].
    exists reqs. split; [reflexivity | split; [reflexivity | exact Hposts]].
  - exists []. split; [reflexivity | split; [reflexivity | constructor]].
  - exists []. split; [reflexivity | split; [reflexivity | constructor]].
Qed.


(** X2. [run_benchmark] ends in one of three ways.  It returns normally.
    Or the health check raised an exception that is neither a connection
    error nor a timeout, and that exception propagates.  Or printing the
    statistics reported to the last timed call it issued raised --
    [AttributeError] for a truthy value that is not a dict,
    [UnicodeEncodeError] for a value the console cannot encode -- and that
    exception propagates.  Nothing else in the loop or in the summary
    raises: every name of the loop is a key of [TEST_TEXTS] and every
    division is guarded. *)
Theorem run_benchmark_exceptions (W : world) (s : state) :
  fst (run_benchmark W s) = Ok tt \/
  (exists e : exn,
     requests_send W (length (sent s)) (health_request (base_url s))
       = Raise e /\
     is_ConnectionError e || is_Timeout e = false /\
     fst (run_benchmark W s) = Raise e) \/
  (exists (n : nat) (q : request) (x : exn),
     sent (snd (run_benchmark W s)) !! n = Some q /\
     S n = length (sent (snd (run_benchmark W s))) /\
     length (sent s) < n /\
     req_method q = POST /\
     stats_result (reported_statistics (requests_send W n q)) = Raise x /\
     (x = AttributeError \/ x = UnicodeEncodeError) /\
     fst (run_benchmark W s) = Raise x).
Proof.
  unfold run_benchmark.
  pose proof (run_benchmark_on_posts W TEST_TEXTS ["short"; "medium"; "long"] s)
    as (posts & Hsent & _ & Hposts).
  revert Hsent.
  pose proof (run_benchmark_on_lines W TEST_TEXTS ["short"; "medium"; "long"] s)
    as Hrun.
  cbn zeta in Hrun. rewrite Hrun. clear Hrun.
  destruct (availability _) as [[|] | e] eqn:Hcheck.
  - pose proof (sweep_raise W (base_url s) TEST_TEXTS
                  ["short"; "medium"; "long"] (clock_reads s)
                  (S (length (sent s))) TEST_TEXTS_keys) as Hsweep.
    destruct (sweep W (base_url s) TEST_TEXTS ["short"; "medium"; "long"]
                (clock_reads s) (S (length (sent s))))
      as [[[[[] | x] es] reads] reqs]; [by left |].
    destruct Hsweep as (pre & q & -> & Hq).
    cbn [fst snd advance sent]. intros Hsent.
    apply app_inv_head in Hsent. injection Hsent as <-.
    right. right. exists (length pre + S (length (sent s))), q, x.
    apply Forall_app in Hposts as [_ Hq_post].
    inversion Hq_post as [| ? ? (Hmethod & _) _]; subst.
    repeat split; auto.
    + replace (sent s ++ health_request (base_url s) :: pre ++ [q])
        with ((sent s ++ health_request (base_url s) :: pre) ++ q :: [])
        by (by rewrite <- app_assoc).
      apply list_lookup_middle. rewrite length_app. cbn. lia.
    + rewrite !length_app. cbn. rewrite length_app. cbn. lia.
    + lia.
    + by apply stats_result_raises in Hq.
  - intros _. by left.
  - intros _. right. left. exists e. unfold availability in Hcheck.
    destruct (requests_send W (length (sent s)) (health_request (base_url s)))
      as [r | e']; [discriminate |].
    destruct (is_ConnectionError e' || is_Timeout e') eqn:Hcaught;
      [discriminate |].
    inversion Hcheck; subst. auto.
Qed.

(** X3. A run never retries and never changes the base URL: it issues the
    health check and at most two timed calls per text of the loop, and reads
    the clock at most four times per text. *)
Theorem run_benchmark_on_bounds (W : world) (texts : gmap string string)
    (order : list string) (s : state) :
  base_url (snd (run_benchmark_on W texts order s)) = base_url s /\
  length (sent s) < length (sent (snd (run_benchmark_on W texts order s)))
    <= length (sent s) + 1 + 2 * length order /\
  clock_reads s <= clock_reads (snd (run_benchmark_on W texts order s))
    <= clock_reads s + 4 * length order.
Proof.
  pose proof (run_benchmark_on_lines W texts order s) as Hrun.
  cbn zeta in Hrun. rewrite Hrun. clear Hrun.
  destruct (availability _) as [[|] | e].
  - pose proof (sweep_names_prefix W (base_url s) texts order
                  (clock_reads s) (S (length (sent s)))) as Hshape.
    destruct (sweep W (base_url s) texts order (clock_reads s)
                (S (length (sent s)))) as [[[r es] reads] reqs].
    destruct Hshape as (_ & _ & _ & _ & _ & Hreqs & Hreads).
    cbn. rewrite length_app. cbn. repeat split; lia.
  - cbn. rewrite length_app. cbn. repeat split; lia.
  - cbn. rewrite length_app. cbn. repeat split; lia.
Qed.

(** X4. Whatever the service does, and however the run ends, the records a
    run appends are kept behind the earlier ones and follow the loop: their
    names are a prefix of the loop's list, each carries the length of its
    text, and each is backed by two timed calls, with at most two further
    calls (those of a pass that did not finish). *)
Theorem records_follow_the_loop (W : world) (texts : gmap string string)
    (order : list string) (s : state) :
  exists (new : list entry) (posts : list request),
    results (snd (run_benchmark_on W texts order s)) = results s ++ new /\
    map e_size new `prefix_of` order /\
    map e_length new
      = map (fun text_size =>
               String.length (default "" (texts !! text_size)))
          (map e_size new) /\
    sent (snd (run_benchmark_on W texts order s))
      = sent s ++ health_request (base_url s) :: posts /\
    2 * length new <= length posts <= 2 * length new + 2.
Proof.
  pose proof (run_benchmark_on_lines W texts order s) as Hrun.
  cbn zeta in Hrun. rewrite Hrun. clear Hrun.
  destruct (availability _) as [[|] | e].
  - pose proof (sweep_names_prefix W (base_url s) texts order
                  (clock_reads s) (S (length (sent s)))) as Hshape.
    destruct (sweep W (base_url s) texts order (clock_reads s)
                (S (length (sent s)))) as [[[r es] reads] reqs].
    destruct Hshape as (Hnames & Hlens & _ & Hreqs & _).
    exists es, reqs. repeat split; auto; lia.
  - exists [], []. cbn. repeat split; auto using prefix_nil; lia.
  - exists [], []. cbn. repeat split; auto using prefix_nil; lia.
Qed.

(** X5. The summary is printed exactly when the availability check passes
    and the loop runs to its end.  It then has one row for every record of
    [self.results], those that were there before the run included, and one
    totals line over all of them; [run_benchmark] does not reset the list.
    A run that stops at the check or is ended by an exception prints no row
    and no totals line. *)
Theorem summary_after_complete_loop (W : world) (texts : gmap string string)
    (order : list string) (s : state) :
  exists out : list msg,
    stdout (snd (run_benchmark_on W texts order s)) = stdout s ++ out /\
    match fst (check_server W s), fst (run_benchmark_on W texts order s) with
    | Ok true, Ok _ =>
        omap row_of out
          = map row_values (results (snd (run_benchmark_on W texts order s)))
        /\
        omap totals_of out
          = [totals_values
               (results (snd (run_benchmark_on W texts order s)))]
    | _, _ => omap row_of out = [] /\ omap totals_of out = []
    end.
Proof.
  exists (run_lines W texts order s).
  pose proof (run_benchmark_on_lines W texts order s) as Hrun.
  cbn zeta in Hrun. rewrite Hrun, check_server_run. clear Hrun.
  unfold run_lines. cbn [fst].
  destruct (availability _) as [[|] | e].
  - pose proof (sweep_lines_show W (base_url s) texts order (clock_reads s)
                  (S (length (sent s)))) as Hshow.
    cbn zeta in Hshow. destruct Hshow as (Hrow & Htot & _).
    destruct (sweep W (base_url s) texts order (clock_reads s)
                (S (length (sent s)))) as [[[[[] | x] es] reads] reqs].
    + destruct (summary_lines_show (results s ++ es)) as (Hr & Ht & _).
      cbn [fst snd advance results stdout].
      split; [reflexivity |].
      rewrite !omap_app, Hrow, Htot, Hr, Ht. by cbn.
    + cbn [fst snd advance stdout]. split; [reflexivity |].
      rewrite !omap_app, Hrow, Htot. by cbn.
  - cbn. auto.
  - cbn. auto.
Qed.

(** X6. Every timed call of a run has its elapsed time in the progress log:
    one [Time] line per call, in call order.  The records hold those times
    two by two, fast then enhanced, in record order; unless printing a
    statistics value ended the run ([AttributeError], [UnicodeEncodeError]),
    every logged time is a recorded one.  A run ended that way has logged
    the times of the pass that left no record, after those of the
    records. *)
Theorem logged_times_are_recorded (W : world) (texts : gmap string string)
    (order : list string) (s : state) :
  exists (new : list entry) (posts : list request) (out : list msg),
    results (snd (run_benchmark_on W texts order s)) = results s ++ new /\
    sent (snd (run_benchmark_on W texts order s))
      = sent s ++ health_request (base_url s) :: posts /\
    stdout (snd (run_benchmark_on W texts order s)) = stdout s ++ out /\
    omap time_of out
      = map (call_time W)
          (calls_from W (clock_reads s) (S (length (sent s))) posts) /\
    flat_map entry_times new `prefix_of` omap time_of out /\
    match fst (run_benchmark_on W texts order s) with
    | Raise AttributeError | Raise UnicodeEncodeError => True
    | _ => omap time_of out = flat_map entry_times new
    end.
Proof.
  pose proof (run_benchmark_on_lines W texts order s) as Hrun.
  cbn zeta in Hrun. rewrite Hrun. clear Hrun. unfold run_lines.
  destruct (availability _) as [[|] | e].
  - pose proof (sweep_lines_show W (base_url s) texts order (clock_reads s)
                  (S (length (sent s)))) as Hshow.
    cbn zeta in Hshow. destruct Hshow as (_ & _ & Hshow).
    pose proof (sweep_calls W (base_url s) texts order (clock_reads s)
                  (S (length (sent s)))) as Hcalls.
    pose proof (sweep_key_error W (base_url s) texts order (clock_reads s)
                  (S (length (sent s)))) as Hmissing.
    destruct (sweep W (base_url s) texts order (clock_reads s)
                (S (length (sent s)))) as [[[r es] reads] reqs].
    destruct Hshow as (_ & Htimes). destruct Hcalls as [Hprefix Hall].
    exists es, reqs. eexists.
    split; [reflexivity |]. split; [reflexivity |]. split; [reflexivity |].
    cbn [fst snd] in *.
    assert (Hsummary : forall rs,
              omap time_of
                (match r with
                 | Ok _ => summary_lines rs
                 | Raise _ => []
                 end) = []).
    { intros rs. destruct r; [| reflexivity].
      by destruct (summary_lines_show rs) as (_ & _ & ? & _). }
    rewrite !omap_app, Hsummary, app_nil_r. cbn [omap list_omap time_of app].
    rewrite Htimes. split; [reflexivity |]. split; [exact Hprefix |].
    destruct r as [[] | x]; [symmetry; by apply Hall |].
    destruct x; try exact I; symmetry; by apply Hmissing.
  - exists [], [], [MsgRule; MsgBanner; MsgRule; MsgChecking;
                    MsgServerDown; MsgStartHint].
    cbn. repeat split; reflexivity.
  - exists [], [], [MsgRule; MsgBanner; MsgRule; MsgChecking].
    cbn. rewrite ?app_nil_r. repeat split; try reflexivity.
    destruct e; try exact I; reflexivity.
Qed.

(** X7. The progress log has a [Speed difference] line for exactly those
    records whose enhanced time is strictly positive, in record order, and
    the line shows the enhanced time over the fast time, or 1 when the fast
    time is not strictly positive.  A text whose enhanced call failed (time
    zero) gets no such line, and a pass that left no record printed none. *)
Theorem logged_speed_differences (W : world) (texts : gmap string string)
    (order : list string) (s : state) :
  exists (new : list entry) (out : list msg),
    results (snd (run_benchmark_on W texts order s)) = results s ++ new /\
    stdout (snd (run_benchmark_on W texts order s)) = stdout s ++ out /\
    omap speed_of out
      = flat_map
          (fun e =>
             if (0 <? e_enhanced_mode e)%float
             then [if (0 <? e_fast_mode e)%float
                   then (e_enhanced_mode e / e_fast_mode e)%float
                   else 1%float]
             else [])
          new.
Proof.
  pose proof (run_benchmark_on_lines W texts order s) as Hrun.
  cbn zeta in Hrun. rewrite Hrun. clear Hrun. unfold run_lines.
  destruct (availability _) as [[|] | e].
  - pose proof (sweep_lines_show W (base_url s) texts order (clock_reads s)
                  (S (length (sent s)))) as Hshow.
    cbn zeta in Hshow. destruct Hshow as (_ & _ & Hshow).
    destruct (sweep W (base_url s) texts order (clock_reads s)
                (S (length (sent s)))) as [[[r es] reads] reqs].
    destruct Hshow as (Hspeed & _).
    exists es. eexists. split; [reflexivity |]. split; [reflexivity |].
    assert (Hsummary : forall rs,
              omap speed_of
                (match r with
                 | Ok _ => summary_lines rs
                 | Raise _ => []
                 end) = []).
    { intros rs. destruct r; [| reflexivity].
      by destruct (summary_lines_show rs) as (_ & _ & _ & ?). }
    rewrite !omap_app, Hsummary, app_nil_r, Hspeed. reflexivity.
  - exists [], [MsgRule; MsgBanner; MsgRule; MsgChecking;
                MsgServerDown; MsgStartHint].
    cbn. repeat split; reflexivity.
  - exists [], [MsgRule; MsgBanner; MsgRule; MsgChecking].
    cbn. rewrite ?app_nil_r. repeat split; reflexivity.
Qed.

(** X8. [print_summary] only prints: it sends no request, does not read the
    clock and leaves [self.results] and the base URL as they are, so printing
    the summary again gives the same lines again. *)
Theorem print_summary_repeats (s : state) :
  let s1 := snd (print_summary s) in
  base_url s1 = base_url s /\ results s1 = results s /\
  clock_reads s1 = clock_reads s /\ sent s1 = sent s /\
  fst (print_summary s1) = Ok tt /\
  exists out : list msg,
    stdout s1 = stdout s ++ out /\
    stdout (snd (print_summary s1)) = stdout s1 ++ out.
Proof.
  cbn zeta. rewrite !print_summary_run. cbn [fst snd emit base_url results
    clock_reads sent stdout].
  repeat split. exists (summary_lines (results s)). split; reflexivity.
Qed.


(** X10. The availability check has no effect but its one request: it prints
    nothing, does not read the clock, and leaves [self.results] and the base
    URL as they are, also when the request fails or its exception
    propagates. *)
Theorem check_server_only_sends (W : world) (s : state) :
  let s1 := snd (check_server W s) in
  base_url s1 = base_url s /\ results s1 = results s /\
  clock_reads s1 = clock_reads s /\ stdout s1 = stdout s /\
  length (sent s1) = S (length (sent s)).
Proof.
  cbn zeta. rewrite check_server_run.
  cbn [snd advance base_url results clock_reads sent stdout].
  rewrite !app_nil_r, length_app. cbn. repeat split; lia.
Qed.

(** X11. A timed call leaves [self.results] and the base URL as they are.
    It reads the clock twice when the request is answered and once when the
    request raises (no end time is taken then), and it prints at most one
    line: none exactly when the answer has status 200 and a JSON object as
    body. *)
Theorem timed_call_effects (W : world) (text text_name : string)
    (enhanced : bool) (s : state) :
  let outcome :=
    requests_send W (length (sent s))
      (humanize_request (base_url s) text enhanced) in
  let s1 := snd (benchmark_humanization W text text_name enhanced s) in
  base_url s1 = base_url s /\ results s1 = results s /\
  clock_reads s1
    = match outcome with Ok _ => 2 | Raise _ => 1 end + clock_reads s /\
  exists out : list msg,
    stdout s1 = stdout s ++ out /\ length out <= 1 /\
    (out = [] <->
     exists (r : response) (d : gmap string value),
       outcome = Ok r /\ status_code r = 200%Z /\ json r = Some (VDict d)).
Proof.
  cbn zeta.
  pose proof (benchmark_humanization_run W text text_name enhanced s) as Hrun.
  cbn zeta in Hrun. rewrite Hrun. clear Hrun.
  cbn [snd advance base_url results clock_reads stdout].
  rewrite app_nil_r. split; [reflexivity |]. split; [reflexivity |].
  split; [reflexivity |].
  exists (call_output
            (requests_send W (length (sent s))
               (humanize_request (base_url s) text enhanced))).
  split; [reflexivity |].
  destruct (requests_send W (length (sent s))
              (humanize_request (base_url s) text enhanced)) as [r | e];
    unfold call_output.
  - destruct (Z.eqb_spec (status_code r) 200) as [Hstatus | Hstatus].
    + destruct (json r) as [[] |] eqn:Hjson; cbn; (split; [lia |]);
        (split; [try discriminate; intros _; by eexists r, _
                | try reflexivity; intros (r' & d' & Hr & _ & Hd);
                  inversion Hr; subst; congruence]).
    + cbn. split; [lia |]. split; [discriminate |].
      intros (r' & d' & Hr & Hs & _). inversion Hr; subst. contradiction.
  - destruct (is_Timeout e); cbn; (split; [lia |]);
      (split; [discriminate | intros (r' & d' & Hr & _); discriminate]).
Qed.
